(** * bracketsjdk: the Node side of the Brackets JDK extension

    A shallow embedding of [node/bracketsjdk.js]: the compiler gateway
    ([compileFiles], [createDir], [emptyDir]) and the single-slot process
    supervisor ([run], [writeToStdin], [killProcess] and the listeners
    [run] attaches to a child process), and the registrations [init]
    makes with the domain manager.

    The module-level variables of the script ([currentProcess], the
    [_domainManager] event sink) and the objects it shares with the host
    (the [ChildProcess] objects, the disk seen through the shell) are
    fields of one explicit [state]; every function of the script is a
    state transformer. *)

From stdpp Require Import base list strings pretty.

Local Open Scope string_scope.
Local Open Scope list_scope.

(** The two characters the script writes as escapes: the double quote that
    wraps every path of a command line, and the line feed. *)
Definition dq : string := String (Ascii.ascii_of_nat 34) EmptyString.
Definition nl : string := String (Ascii.ascii_of_nat 10) EmptyString.

(** ** Events sent through [_domainManager.emitEvent] *)

Record event := Event {
  ev_domain : string;
  ev_name : string;
  ev_payload : string
}.

(** ** Child processes *)

(** A handle is the identity of a [ChildProcess] object: its index in the
    heap of objects created by [child_process.exec] for [java]. *)
Definition handle := nat.

(** The two closures [run] registers for the ["exit"] event of a child:
    the one of lines 113-120 and the one of lines 87-89, which captures the
    arguments of the [run] call that registered it. *)
Inductive exit_listener :=
| ClearSlot
| RunAgain (directory className : string).

Record child := Child {
  child_command : string;
  child_cwd : string;
  child_pid : N;
  child_on_exit : list exit_listener;
  child_stdin : list string;
  child_signals : list string;
  child_exited : bool
}.

(** ** The disk, as the shell commands of the script see it *)

Definition path := list string.
Definition fs := list path.

Inductive exec_result :=
| Exit0
| ExitNonZero (stderr : string).

(** How a function of the script ends: with a returned value, or with the
    exception of a failed [execSync] that nothing caught. *)
Inductive outcome (A : Type) :=
| Returned (a : A)
| Thrown (stderr : string).
Arguments Returned {A} a.
Arguments Thrown {A} stderr.

(** One call of [child_process.execSync]: the command line, the [cwd]
    option when one is given, and the disk the command started on. *)
Record sh_call := ShCall {
  sh_command : string;
  sh_cwd : option string;
  sh_seen : fs
}.

(** ** State of the Node process *)

Record state := State {
  currentProcess : option handle;
  heap : list child;
  emitted : list event;
  detached : list string;
  disk : fs;
  sh_log : list sh_call
}.

Definition init_state (d : fs) : state :=
  {| currentProcess := None; heap := []; emitted := []; detached := [];
     disk := d; sh_log := [] |}.

Definition set_currentProcess (o : option handle) (st : state) : state :=
  {| currentProcess := o; heap := heap st; emitted := emitted st;
     detached := detached st; disk := disk st; sh_log := sh_log st |}.

Definition set_heap (hp : list child) (st : state) : state :=
  {| currentProcess := currentProcess st; heap := hp; emitted := emitted st;
     detached := detached st; disk := disk st; sh_log := sh_log st |}.

Definition emitEvent (domain name payload : string) (st : state) : state :=
  {| currentProcess := currentProcess st; heap := heap st;
     emitted := emitted st ++ [Event domain name payload];
     detached := detached st; disk := disk st; sh_log := sh_log st |}.

(** [child_process.exec(cmd)] with the returned object dropped. *)
Definition exec_detached (cmd : string) (st : state) : state :=
  {| currentProcess := currentProcess st; heap := heap st;
     emitted := emitted st; detached := detached st ++ [cmd];
     disk := disk st; sh_log := sh_log st |}.

(** Updates of one [ChildProcess] object. *)
Definition add_exit_listener (l : exit_listener) (c : child) : child :=
  {| child_command := child_command c; child_cwd := child_cwd c;
     child_pid := child_pid c; child_on_exit := child_on_exit c ++ [l];
     child_stdin := child_stdin c; child_signals := child_signals c;
     child_exited := child_exited c |}.

Definition stdin_write (input : string) (c : child) : child :=
  {| child_command := child_command c; child_cwd := child_cwd c;
     child_pid := child_pid c; child_on_exit := child_on_exit c;
     child_stdin := child_stdin c ++ [input];
     child_signals := child_signals c; child_exited := child_exited c |}.

Definition kill (signal : string) (c : child) : child :=
  {| child_command := child_command c; child_cwd := child_cwd c;
     child_pid := child_pid c; child_on_exit := child_on_exit c;
     child_stdin := child_stdin c;
     child_signals := child_signals c ++ [signal];
     child_exited := child_exited c |}.

Definition mark_exited (c : child) : child :=
  {| child_command := child_command c; child_cwd := child_cwd c;
     child_pid := child_pid c; child_on_exit := child_on_exit c;
     child_stdin := child_stdin c; child_signals := child_signals c;
     child_exited := true |}.

Definition update_child (h : handle) (f : child -> child) (st : state) : state :=
  set_heap (alter f h (heap st)) st.

(** JavaScript's [String(code)] for the exit code handed to an ["exit"]
    listener: a number, or [null] when the child died of a signal. *)
Definition js_string_of_code (code : option Z) : string :=
  match code with
  | Some z => pretty z
  | None => "null"
  end.

(** ** A POSIX shell for the directory commands

    [createDir] and [emptyDir] hand [mkdir -p "dir"] and [rm -rf "dir"*] to
    [/bin/sh]. What these two command lines do is the shell's business
    and not the script's; it is modelled here on a disk that is a list of
    existing paths (no permissions, no difference between a file and a
    directory, so that [mkdir -p] and [rm -rf] have nothing to fail on).
    Every other command line is left to the programs of the host. *)

Fixpoint strip_prefix (p s : string) : option string :=
  match p, s with
  | EmptyString, _ => Some s
  | String a p', String b s' =>
      if Ascii.eqb a b then strip_prefix p' s' else None
  | String _ _, EmptyString => None
  end.

(** [s] cut at its first double quote. *)
Fixpoint cut_at_dq (s : string) : option (string * string) :=
  match s with
  | EmptyString => None
  | String a s' =>
      if Ascii.eqb a (Ascii.ascii_of_nat 34) then Some (EmptyString, s')
      else match cut_at_dq s' with
           | Some (u, v) => Some (String a u, v)
           | None => None
           end
  end.

(** Between double quotes the shell still expands after a dollar, a
    backquote and a backslash, and a double quote ends the word: a word
    holding none of them is taken as typed. *)
Definition special (a : Ascii.ascii) : bool :=
  Ascii.eqb a (Ascii.ascii_of_nat 34) || Ascii.eqb a (Ascii.ascii_of_nat 36)
  || Ascii.eqb a (Ascii.ascii_of_nat 96) || Ascii.eqb a (Ascii.ascii_of_nat 92).

Fixpoint plain (s : string) : bool :=
  match s with
  | EmptyString => true
  | String a s' => negb (special a) && plain s'
  end.

Inductive posix_command :=
| MkdirP (operand : string)
| RmRfGlob (quoted : string).

Definition parse_command (cmd : string) : option posix_command :=
  match strip_prefix ("mkdir -p " +:+ dq) cmd with
  | Some r =>
      match cut_at_dq r with
      | Some (w, EmptyString) => if plain w then Some (MkdirP w) else None
      | _ => None
      end
  | None =>
      match strip_prefix ("rm -rf " +:+ dq) cmd with
      | Some r =>
          match cut_at_dq r with
          | Some (w, rest) =>
              if String.eqb rest "*" && plain w then Some (RmRfGlob w) else None
          | None => None
          end
      | None => None
      end
  end.

(** The text between the slashes of [s] (never an empty list). *)
Fixpoint split_slash (s : string) : list string :=
  match s with
  | EmptyString => [EmptyString]
  | String a s' =>
      if Ascii.eqb a (Ascii.ascii_of_nat 47) then EmptyString :: split_slash s'
      else match split_slash s' with
           | x :: xs => String a x :: xs
           | [] => [String a EmptyString]
           end
  end.

Definition walk (p : path) (name : string) : path :=
  if String.eqb name "" || String.eqb name "." then p
  else if String.eqb name ".." then List.removelast p
  else p ++ [name].

Definition start_of (here : path) (s : string) : path :=
  if String.prefix "/" s then [] else here.

(** The path a word names, from the working directory [here]. *)
Definition resolve (here : path) (s : string) : path :=
  foldl walk (start_of here s) (split_slash s).

Definition hidden (name : string) : bool := String.prefix "." name.

(** Does [name] match the pattern [stem*], in which only the star is a
    pattern character? A leading dot is matched by a written dot only. *)
Definition glob_match (stem name : string) : bool :=
  String.prefix stem name && (negb (hidden name) || hidden stem).

Fixpoint strip_path (dir q : path) : option path :=
  match dir, q with
  | [], _ => Some q
  | n :: dir', m :: q' => if String.eqb n m then strip_path dir' q' else None
  | _ :: _, [] => None
  end.

(** [q] is, or lies under, an entry of [dir] matching [stem*]. *)
Definition globbed (dir : path) (stem : string) (q : path) : bool :=
  match strip_path dir q with
  | Some (name :: _) => glob_match stem name
  | _ => false
  end.

(** [rm -rf "w"*]: the pattern is the last piece of [w] followed by a
    star, looked up in the directory the pieces before it name. *)
Definition rm_rf_glob (here : path) (w : string) (d : fs) : fs :=
  let pieces := split_slash w in
  let dir := foldl walk (start_of here w) (List.removelast pieces) in
  filter (fun q => negb (globbed dir (List.last pieces EmptyString) q)) d.

Definition dir_exists (p : path) (d : fs) : bool :=
  bool_decide (p = [] \/ p ∈ d).

(** [mkdir -p]: the pieces of the operand are walked from [from], and
    every directory on the way that is missing is made. *)
Fixpoint mkdir_p (from : path) (pieces : list string) (d : fs) : fs :=
  match pieces with
  | [] => d
  | n :: pieces' =>
      let p := walk from n in
      mkdir_p p pieces' (if dir_exists p d then d else d ++ [p])
  end.

Definition posix_shell (wd : path)
    (programs : string -> option string -> fs -> fs * exec_result)
    (cmd : string) (cwd : option string) (d : fs) : fs * exec_result :=
  let here := match cwd with Some c => resolve wd c | None => wd end in
  match parse_command cmd with
  | Some (MkdirP w) =>
      if String.eqb w "" then (d, ExitNonZero "mkdir: cannot create directory")
      else (mkdir_p (start_of here w) (split_slash w) d, Exit0)
  | Some (RmRfGlob w) => (rm_rf_glob here w d, Exit0)
  | None => programs cmd cwd d
  end.

(** ** The domain manager, as [init] uses it

    [init], lines 163-270, stores the manager it is given and makes a
    fixed series of calls on it, of which only the first depends on
    anything: on what [hasDomain] answers. Each call is recorded with
    the arguments the script writes; for [killProcess] the script gives
    neither parameters nor results, recorded as empty lists. *)

Record dm_param := Param {
  param_name : string;
  param_type : string;
  param_description : string
}.

Inductive command_handler :=
| HandleCompileFiles
| HandleRun
| HandleWriteToStdin
| HandleKillProcess.

Inductive dm_call :=
| RegisterDomain (domain : string) (major minor : N)
| RegisterCommand (domain name : string) (handler : command_handler)
    (isAsync : bool) (description : string) (parameters returns : list dm_param)
| RegisterEvent (domain name : string) (parameters : list dm_param).

Definition init (hasDomain : bool) : list dm_call :=
  (if hasDomain then [] else [RegisterDomain "bracketsjdk" 0 1]) ++
  [ RegisterCommand "bracketsjdk" "compileFiles" HandleCompileFiles false
      "Compiles an array of java files to a specific directory."
      [ Param "filePath" "array" "Array of paths of files to compile.";
        Param "outputPath" "string" "Path of directory to compile to." ]
      [ Param "result" "object"
          "An object containing the process return code, stdout, and stderr." ];
    RegisterCommand "bracketsjdk" "run" HandleRun false
      "Runs a java .class file."
      [ Param "directory" "string"
          "Directory in which the class to run resides.";
        Param "className" "string"
          "Path of .class file to run, excluding the file extension." ]
      [ Param "write" "function" "A callback to be used to write to stdin." ];
    RegisterCommand "bracketsjdk" "writeToStdin" HandleWriteToStdin false
      "Writes text to Standard Input of currently running process."
      [ Param "text" "string" "The text to write to Stdin." ] [];
    RegisterCommand "bracketsjdk" "killProcess" HandleKillProcess false
      "Sends the currently running Java process a SIGINT" [] [];
    RegisterEvent "bracketsjdk" "log"
      [ Param "logText" "string" "Line to log." ];
    RegisterEvent "bracketsjdk" "output"
      [ Param "ouputText" "string" "The text of stdout." ];
    RegisterEvent "bracketsjdk" "error"
      [ Param "errorText" "string" "The text of stderr." ] ].

(** Is [e] an event of a name and a domain that [calls] registered? *)
Definition event_registered (calls : list dm_call) (e : event) : bool :=
  existsb
    (fun c =>
       match c with
       | RegisterEvent domain name _ =>
           String.eqb domain (ev_domain e) && String.eqb name (ev_name e)
       | _ => false
       end)
    calls.

(** ** A host for the examples

    A pid for every child, a [javac] that compiles without a word and
    one that rejects its input, and the disk of a small project. *)

Definition some_pid (h : handle) : N := 4000 + N.of_nat h.

Definition javac_ok (cmd : string) (cwd : option string) (d : fs)
  : fs * exec_result := (d, Exit0).

Definition javac_rejects (cmd : string) (cwd : option string) (d : fs)
  : fs * exec_result := (d, ExitNonZero "Main.java:1: error: ';' expected").

(** A host on which [rm] is refused and every other command goes well,
    and one on which every command fails. *)
Definition rm_denied (cmd : string) (cwd : option string) (d : fs)
  : fs * exec_result :=
  if String.prefix "rm " cmd then (d, ExitNonZero "rm: Permission denied")
  else (d, Exit0).

Definition all_fail (cmd : string) (cwd : option string) (d : fs)
  : fs * exec_result := (d, ExitNonZero "failed").

Definition project : fs :=
  [ ["p"]; ["p"; "bin"]; ["p"; "bin"; "A.class"]; ["p"; "bin"; ".keep"];
    ["p"; "bin2"]; ["p"; "src"] ].

Section Script.

(** What the host decides: the value of [os.platform()], the pid the
    system gives to each spawned child, and what a shell command run by
    [execSync] does to the disk and how it exits. *)
Variable os_platform : string.
Variable os_pid : handle -> N.
Variable shell : string -> option string -> fs -> fs * exec_result.

Definition is_win32 : bool := String.eqb os_platform "win32".

(** [child_process.execSync(cmd, {cwd})], with [None] for a normal
    return and [Some stderr] for the exception thrown on a non-zero
    exit (its [stderr] field). *)
Definition execSync (cmd : string) (cwd : option string) (st : state)
  : option string * state :=
  let '(d, r) := shell cmd cwd (disk st) in
  let st' :=
    {| currentProcess := currentProcess st; heap := heap st;
       emitted := emitted st; detached := detached st; disk := d;
       sh_log := sh_log st ++ [ShCall cmd cwd (disk st)] |} in
  match r with
  | Exit0 => (None, st')
  | ExitNonZero err => (Some err, st')
  end.

(** *** Process supervisor *)

(** [killProcess], lines 143-156. *)
Definition killProcess (st : state) : state :=
  match currentProcess st with
  | None => st
  | Some h =>
      let st1 := emitEvent "bracketsjdk" "output" nl st in
      if is_win32 then
        match heap st1 !! h with
        | Some c =>
            exec_detached ("taskkill /pid " +:+ pretty (child_pid c) +:+ " /T /F") st1
        | None => st1
        end
      else update_child h (kill "SIGINT") st1
  end.

(** [run], lines 82-124. The recursive call of line 88 sits in a
    listener: it is made by [emit_exit] below, not by [run]. *)
Definition run (directory className : string) (st : state) : state :=
  match currentProcess st with
  | Some h =>
      let st1 := killProcess st in
      update_child h (add_exit_listener (RunAgain directory className)) st1
  | None =>
      let st1 :=
        emitEvent "bracketsjdk" "log" ("Running class " +:+ className +:+ "...") st in
      let h := length (heap st1) in
      let process :=
        {| child_command := "java " +:+ className; child_cwd := directory;
           child_pid := os_pid h; child_on_exit := [ClearSlot];
           child_stdin := []; child_signals := []; child_exited := false |} in
      set_currentProcess (Some h) (set_heap (heap st1 ++ [process]) st1)
  end.

(** The ["data"] listeners of lines 103-110. *)
Definition on_stdout_data (data : string) (st : state) : state :=
  emitEvent "bracketsjdk" "output" data st.

Definition on_stderr_data (data : string) (st : state) : state :=
  emitEvent "bracketsjdk" "error" data st.

(** The ["exit"] listener of lines 113-120, called with [this] bound to
    the child that exited. *)
Definition on_exit (this : handle) (code : option Z) (st : state) : state :=
  let st1 :=
    if decide (currentProcess st = Some this)
    then set_currentProcess None st
    else st in
  let st2 :=
    emitEvent "bracketsjdk" "log"
      ("Java exited with code: " +:+ js_string_of_code code) st1 in
  emitEvent "bracketsjdk" "output" nl st2.

Definition call_exit_listener (this : handle) (code : option Z)
    (st : state) (l : exit_listener) : state :=
  match l with
  | ClearSlot => on_exit this code st
  | RunAgain directory className => run directory className st
  end.

(** Node emitting ["exit"] on child [h]: the listeners registered on
    [h] at that moment are called in the order they were registered. *)
Definition emit_exit (h : handle) (code : option Z) (st : state) : state :=
  match heap st !! h with
  | Some c => foldl (call_exit_listener h code) st (child_on_exit c)
  | None => st
  end.

(** [writeToStdin], lines 132-137. *)
Definition writeToStdin (input : string) (st : state) : state :=
  match currentProcess st with
  | None => st
  | Some h => update_child h (stdin_write input) st
  end.

(** *** Compiler gateway *)

Definition create_command (dir : string) : string :=
  if is_win32 then "md " +:+ dq +:+ dir +:+ dq
  else "mkdir -p " +:+ dq +:+ dir +:+ dq.

Definition clear_command (dir : string) : string :=
  if is_win32 then "rmdir /S /Q " +:+ dq +:+ dir +:+ dq
  else "rm -rf " +:+ dq +:+ dir +:+ dq +:+ "*".

Definition clear_cwd (dir : string) : option string :=
  if is_win32 then Some dir else None.

Definition javac_command (filePaths : list string) (outputPath : string) : string :=
  "javac " +:+ dq +:+ String.concat (dq +:+ " " +:+ dq) filePaths +:+ dq
    +:+ " -d " +:+ dq +:+ outputPath +:+ dq.

(** [createDir], lines 45-57: both branches swallow the exception. *)
Definition createDir (dir : string) (st : state) : state :=
  if is_win32 then snd (execSync ("md " +:+ dq +:+ dir +:+ dq) None st)
  else snd (execSync ("mkdir -p " +:+ dq +:+ dir +:+ dq) None st).

(** [emptyDir], lines 64-74: only the win32 branch has a try-catch. *)
Definition emptyDir (dir : string) (st : state) : outcome unit * state :=
  if is_win32 then
    (Returned tt, snd (execSync ("rmdir /S /Q " +:+ dq +:+ dir +:+ dq) (Some dir) st))
  else
    match execSync ("rm -rf " +:+ dq +:+ dir +:+ dq +:+ "*") None st with
    | (None, st') => (Returned tt, st')
    | (Some err, st') => (Thrown err, st')
    end.

(** [compileFiles], lines 17-38. *)
Definition compileFiles (filePaths : list string) (outputPath : string)
    (st : state) : outcome bool * state :=
  if decide (length filePaths = 0) then (Returned false, st)
  else
    let st1 := createDir outputPath st in
    match emptyDir outputPath st1 with
    | (Thrown err, st2) => (Thrown err, st2)
    | (Returned _, st2) =>
        let st3 := emitEvent "bracketsjdk" "log" "Compiling..." st2 in
        match execSync
                ("javac " +:+ dq +:+ String.concat (dq +:+ " " +:+ dq) filePaths +:+ dq
                   +:+ " -d " +:+ dq +:+ outputPath +:+ dq) None st3 with
        | (None, st4) =>
            (Returned true, emitEvent "bracketsjdk" "log" "Done." st4)
        | (Some err, st4) =>
            (Returned false, emitEvent "bracketsjdk" "error" err st4)
        end
    end.

(** *** The event loop

    What can happen to the Node process, one turn of the event loop at
    a time: a command of the bracketsjdk domain is called by the
    editor, or a child reports output or its exit. *)

Inductive action :=
| CallRun (directory className : string)
| CallWriteToStdin (input : string)
| CallKillProcess
| CallCompileFiles (filePaths : list string) (outputPath : string)
| ChildStdout (h : handle) (data : string)
| ChildStderr (h : handle) (data : string)
| ChildExit (h : handle) (code : option Z).

(** A child is live from its spawn until the system reports its exit,
    which it does once. *)
Definition live (st : state) (h : handle) : bool :=
  match heap st !! h with
  | Some c => negb (child_exited c)
  | None => false
  end.

Definition enabled (a : action) (st : state) : bool :=
  match a with
  | ChildExit h _ => live st h
  | ChildStdout h _ | ChildStderr h _ => bool_decide (h < length (heap st))
  | _ => true
  end.

Definition step (a : action) (st : state) : state :=
  match a with
  | CallRun directory className => run directory className st
  | CallWriteToStdin input => writeToStdin input st
  | CallKillProcess => killProcess st
  | CallCompileFiles filePaths outputPath =>
      snd (compileFiles filePaths outputPath st)
  | ChildStdout _ data => on_stdout_data data st
  | ChildStderr _ data => on_stderr_data data st
  | ChildExit h code => emit_exit h code (update_child h mark_exited st)
  end.

Fixpoint exec (tr : list action) (st : state) : state :=
  match tr with
  | [] => st
  | a :: tr' => exec tr' (step a st)
  end.

Fixpoint valid (tr : list action) (st : state) : bool :=
  match tr with
  | [] => true
  | a :: tr' => enabled a st && valid tr' (step a st)
  end.

Definition is_exit (a : action) : bool :=
  match a with
  | ChildExit _ _ => true
  | _ => false
  end.

(** [run] called for one request after the other, with nothing
    happening in between. *)
Definition run_all (reqs : list (string * string)) (st : state) : state :=
  foldl (fun s r => run r.1 r.2 s) st reqs.

(** The child in the slot exits, then the one that took its place, and
    so on, one exit for each code. *)
Fixpoint exit_all (codes : list (option Z)) (st : state) : state :=
  match codes with
  | [] => st
  | code :: codes' =>
      match currentProcess st with
      | Some h => exit_all codes' (step (ChildExit h code) st)
      | None => st
      end
  end.

(** The events of the script: of its domain, and of one of three names. *)
Definition script_event (e : event) : Prop :=
  ev_domain e = "bracketsjdk" /\
  (ev_name e = "log" \/ ev_name e = "output" \/ ev_name e = "error").

(** From [st] to [st'], events of the script were added and none was
    taken back. *)
Definition emits (st st' : state) : Prop :=
  exists evs, emitted st' = emitted st ++ evs /\ Forall script_event evs.

(** ** Invariant of the slot *)

Definition is_run_again (l : exit_listener) : Prop :=
  match l with
  | ClearSlot => False
  | RunAgain _ _ => True
  end.

(** The children that have not exited are exactly the one recorded as
    current, and a child that has not exited carries the listener of
    lines 113-120 first, followed by the restarts asked for meanwhile. *)
Definition slot_ok (st : state) : Prop :=
  (forall h, currentProcess st = Some h -> is_Some (heap st !! h)) /\
  (forall h c, heap st !! h = Some c ->
     (child_exited c = false <-> currentProcess st = Some h) /\
     (child_exited c = false ->
      exists pend, child_on_exit c = ClearSlot :: pend /\ Forall is_run_again pend)).

(** Between the exit of a child, when [n] children had been spawned, and
    the next exit: nothing was spawned while the slot is empty, one child
    was once it is taken. *)
Definition spawn_phase (n : nat) (st : state) : Prop :=
  match currentProcess st with
  | None => length (heap st) = n
  | Some _ => length (heap st) = S n
  end.

(** A step that keeps the slot, the number of children, and every
    child's exit status and listeners. *)
Definition slot_frame (st st' : state) : Prop :=
  currentProcess st' = currentProcess st /\
  length (heap st') = length (heap st) /\
  forall h c, heap st' !! h = Some c ->
    exists c0, heap st !! h = Some c0 /\
      child_exited c = child_exited c0 /\ child_on_exit c = child_on_exit c0.

(** A shell command changes the disk and the log of commands only. *)
Definition shell_frame (st st' : state) : Prop :=
  currentProcess st' = currentProcess st /\ heap st' = heap st /\
  emitted st' = emitted st /\ detached st' = detached st.

(** ** What each function leaves alone *)

Lemma update_child_lookup h f st h' :
  heap (update_child h f st) !! h' =
  if decide (h = h') then f <$> heap st !! h' else heap st !! h'.
Proof.
  unfold update_child; simpl. destruct (decide (h = h')) as [->|Hne].
  - apply list_lookup_alter_eq.
  - by apply list_lookup_alter_ne.
Qed.

Lemma update_child_length h f st :
  length (heap (update_child h f st)) = length (heap st).
Proof. unfold update_child; simpl. apply length_alter. Qed.

Lemma killProcess_currentProcess st :
  currentProcess (killProcess st) = currentProcess st.
Proof.
  unfold killProcess. destruct (currentProcess st) as [h|] eqn:E; [|done].
  destruct is_win32; simpl; [|done].
  by destruct (heap st !! h).
Qed.

Lemma killProcess_length st :
  length (heap (killProcess st)) = length (heap st).
Proof.
  unfold killProcess. destruct (currentProcess st) as [h|]; [|done].
  destruct is_win32; simpl.
  - by destruct (heap st !! h).
  - apply length_alter.
Qed.

(** [killProcess] changes no listener and no exit status. *)
Lemma killProcess_lookup st h c :
  heap (killProcess st) !! h = Some c ->
  exists c0, heap st !! h = Some c0 /\
    child_exited c = child_exited c0 /\ child_on_exit c = child_on_exit c0 /\
    child_command c = child_command c0 /\ child_cwd c = child_cwd c0 /\
    child_stdin c = child_stdin c0.
Proof.
  unfold killProcess. destruct (currentProcess st) as [k|]; [|by eauto 10].
  destruct is_win32; simpl.
  - destruct (heap st !! k); simpl; eauto 10.
  - intros H. destruct (decide (k = h)) as [->|Hne].
    + rewrite list_lookup_alter_eq in H.
      destruct (heap st !! h) as [c0|]; simplify_eq/=. eauto 10.
    + rewrite list_lookup_alter_ne in H by done. eauto 10.
Qed.

Lemma killProcess_lookup_None st h :
  heap st !! h = None -> heap (killProcess st) !! h = None.
Proof.
  rewrite !lookup_ge_None, killProcess_length. done.
Qed.

Lemma slot_frame_refl st : slot_frame st st.
Proof. repeat split; eauto. Qed.

Lemma slot_frame_ok st st' : slot_frame st st' -> slot_ok st -> slot_ok st'.
Proof.
  intros (Hcur & Hlen & Hch) [Hin Hok]. split.
  - intros h Hh. rewrite Hcur in Hh. apply Hin in Hh.
    apply lookup_lt_is_Some. rewrite Hlen. by apply lookup_lt_is_Some.
  - intros h c Hc. destruct (Hch h c Hc) as (c0 & Hc0 & -> & ->).
    rewrite Hcur. by apply Hok.
Qed.

Lemma slot_frame_phase n st st' :
  slot_frame st st' -> spawn_phase n st -> spawn_phase n st'.
Proof.
  intros (Hcur & Hlen & _). unfold spawn_phase. by rewrite Hcur, Hlen.
Qed.

Lemma killProcess_frame st : slot_frame st (killProcess st).
Proof.
  split; [apply killProcess_currentProcess|].
  split; [apply killProcess_length|].
  intros h c Hc. destruct (killProcess_lookup _ _ _ Hc) as (c0 & ? & ? & ? & _).
  eauto.
Qed.

Lemma writeToStdin_frame input st : slot_frame st (writeToStdin input st).
Proof.
  unfold writeToStdin. destruct (currentProcess st) as [k|] eqn:E;
    [|apply slot_frame_refl].
  split; [done|]. split; [apply update_child_length|].
  intros h c. rewrite update_child_lookup. case_decide as Hk.
  - subst k. intros (c0 & Hc0 & ->)%fmap_Some. exists c0. done.
  - eauto.
Qed.

Lemma emitEvent_frame dom name payload st :
  slot_frame st (emitEvent dom name payload st).
Proof. repeat split; eauto. Qed.

Lemma execSync_frame cmd cwd st : slot_frame st (snd (execSync cmd cwd st)).
Proof.
  unfold execSync. destruct (shell cmd cwd (disk st)) as [d [|err]];
    repeat split; eauto.
Qed.

Lemma slot_frame_trans st1 st2 st3 :
  slot_frame st1 st2 -> slot_frame st2 st3 -> slot_frame st1 st3.
Proof.
  intros (Hc1 & Hl1 & Hh1) (Hc2 & Hl2 & Hh2). split; [congruence|].
  split; [congruence|]. intros h c Hc.
  destruct (Hh2 h c Hc) as (c2 & Hc2' & -> & ->).
  destruct (Hh1 h c2 Hc2') as (c1 & ? & -> & ->). eauto.
Qed.

Lemma createDir_frame dir st : slot_frame st (createDir dir st).
Proof. unfold createDir. destruct is_win32; apply execSync_frame. Qed.

Lemma emptyDir_frame dir st : slot_frame st (snd (emptyDir dir st)).
Proof.
  unfold emptyDir. destruct is_win32; simpl; [apply execSync_frame|].
  pose proof (execSync_frame ("rm -rf " +:+ dq +:+ dir +:+ dq +:+ "*") None st) as H.
  by destruct execSync as [[err|] st'].
Qed.

Lemma compileFiles_frame filePaths outputPath st :
  slot_frame st (snd (compileFiles filePaths outputPath st)).
Proof.
  unfold compileFiles. case_decide; [apply slot_frame_refl|].
  pose proof (createDir_frame outputPath st) as H1.
  pose proof (emptyDir_frame outputPath (createDir outputPath st)) as H2.
  destruct (emptyDir outputPath (createDir outputPath st)) as [[[]|err] st2];
    simpl in *; [|by eapply slot_frame_trans].
  set (st3 := emitEvent _ _ _ st2).
  pose proof (execSync_frame
    ("javac " +:+ dq +:+ String.concat (dq +:+ " " +:+ dq) filePaths +:+ dq
       +:+ " -d " +:+ dq +:+ outputPath +:+ dq) None st3) as H3.
  assert (slot_frame st st3) as H4.
  { eapply slot_frame_trans; [exact H1|].
    eapply slot_frame_trans; [exact H2|]. apply emitEvent_frame. }
  destruct execSync as [[err|] st4]; simpl in *;
    (eapply slot_frame_trans; [exact H4|]);
    (eapply slot_frame_trans; [exact H3|]); apply emitEvent_frame.
Qed.

(** ** [run] and the slot *)

Lemma run_live directory className st h :
  currentProcess st = Some h ->
  run directory className st =
    update_child h (add_exit_listener (RunAgain directory className))
      (killProcess st).
Proof. unfold run. by intros ->. Qed.

Lemma run_slot_ok directory className st :
  slot_ok st -> slot_ok (run directory className st).
Proof.
  intros Hok. destruct (currentProcess st) as [h|] eqn:E.
  - rewrite (run_live _ _ _ _ E).
    pose proof (slot_frame_ok _ _ (killProcess_frame st) Hok) as [Hin Hch].
    split.
    + intros h' Hh'. apply lookup_lt_is_Some. rewrite update_child_length.
      apply lookup_lt_is_Some. by apply Hin.
    + intros h' c. rewrite update_child_lookup.
      change (currentProcess (update_child _ _ ?s)) with (currentProcess s).
      case_decide as Hk; [|by apply Hch].
      subst h'. intros (c0 & Hc0 & ->)%fmap_Some. simpl.
      destruct (Hch _ _ Hc0) as [Hiff Hl]. split; [done|].
      intros Hx. destruct (Hl Hx) as (pend & -> & Hp).
      exists (pend ++ [RunAgain directory className]). split; [done|].
      apply Forall_app. split; [done|]. by repeat constructor.
  - unfold run. rewrite E. destruct Hok as [Hin Hch]. split; simpl.
    + intros h' [= <-]. apply lookup_lt_is_Some. rewrite length_app. simpl. lia.
    + intros h' c Hc. destruct (decide (h' < length (heap st))) as [Hlt|Hge].
      * rewrite lookup_app_l in Hc by done.
        destruct (Hch _ _ Hc) as [Hiff Hl]. rewrite E in Hiff. split; [|done].
        split; [intros Hx; by apply Hiff in Hx | intros [= <-]; lia].
      * rewrite lookup_app_r in Hc by lia.
        destruct (h' - length (heap st)) as [|k] eqn:Ek; simpl in Hc; [|done].
        simplify_eq. simpl. split.
        -- split; [intros _; f_equal; lia | done].
        -- intros _. by exists [].
Qed.

Lemma run_phase n directory className st :
  spawn_phase n st -> spawn_phase n (run directory className st).
Proof.
  destruct (currentProcess st) as [h|] eqn:E.
  - rewrite (run_live _ _ _ _ E). unfold spawn_phase.
    change (currentProcess (update_child _ _ ?s)) with (currentProcess s).
    by rewrite update_child_length, killProcess_currentProcess, killProcess_length.
  - unfold run, spawn_phase. rewrite E. simpl. rewrite length_app. simpl. lia.
Qed.

(** Calling the listeners of a pending list one after the other. *)
Lemma pending_slot_ok this code pend st :
  Forall is_run_again pend -> slot_ok st ->
  slot_ok (foldl (call_exit_listener this code) st pend).
Proof.
  intros Hp. revert st. induction Hp as [|l pend Hl _ IH]; intros st Hok; [done|].
  simpl. apply IH. destruct l; [done|]. by apply run_slot_ok.
Qed.

Lemma pending_phase this code n pend st :
  Forall is_run_again pend -> spawn_phase n st ->
  spawn_phase n (foldl (call_exit_listener this code) st pend).
Proof.
  intros Hp. revert st. induction Hp as [|l pend Hl _ IH]; intros st Hph; [done|].
  simpl. apply IH. destruct l; [done|]. by apply run_phase.
Qed.

(** ** The exit of a child *)

Lemma live_lookup st h :
  live st h = true <->
  exists c, heap st !! h = Some c /\ child_exited c = false.
Proof.
  unfold live. destruct (heap st !! h) as [c|].
  - split.
    + intros Hx. exists c. split; [done|]. by destruct (child_exited c).
    + intros (c' & [= <-] & ->). done.
  - split; [done|]. by intros (c' & ? & _).
Qed.

(** In a state where the slot is in order, the child that reports its
    exit is the current one, and the listener of lines 113-120 is the
    first to be called. *)
Lemma exit_unfold st h code :
  slot_ok st -> live st h = true ->
  exists c pend,
    currentProcess st = Some h /\ heap st !! h = Some c /\
    child_on_exit c = ClearSlot :: pend /\ Forall is_run_again pend /\
    step (ChildExit h code) st =
      foldl (call_exit_listener h code)
        (on_exit h code (update_child h mark_exited st)) pend.
Proof.
  intros [Hin Hch] (c & Hc & Hx)%live_lookup.
  destruct (Hch _ _ Hc) as [Hiff Hl]. destruct (Hl Hx) as (pend & Hpend & Hp).
  exists c, pend. repeat split; [by apply Hiff|done..|].
  simpl. unfold emit_exit. rewrite update_child_lookup.
  rewrite decide_True by done. rewrite Hc. simpl. by rewrite Hpend.
Qed.

(** Once the current child is marked as exited and the slot is cleared,
    no child is left that has not exited. *)
Lemma on_exit_slot_ok st h code :
  slot_ok st -> currentProcess st = Some h ->
  slot_ok (on_exit h code (update_child h mark_exited st)) /\
  spawn_phase (length (heap st)) (on_exit h code (update_child h mark_exited st)).
Proof.
  intros [Hin Hch] Hcur. unfold on_exit.
  change (currentProcess (update_child _ _ ?s)) with (currentProcess s).
  rewrite decide_True by done. split; [split|]; simpl.
  - done.
  - intros h' c. destruct (decide (h = h')) as [->|Hne].
    + rewrite list_lookup_alter_eq. intros (c0 & Hc0 & ->)%fmap_Some. simpl.
      split; [split|]; done.
    + rewrite list_lookup_alter_ne by done. intros Hc.
      destruct (Hch _ _ Hc) as [Hiff Hl]. rewrite Hcur in Hiff.
      assert (child_exited c = true) as Hx.
      { destruct (child_exited c); [done|]. destruct Hiff as [Hiff _].
        specialize (Hiff eq_refl). congruence. }
      rewrite Hx. split; [split|]; done.
  - unfold spawn_phase. simpl. apply length_alter.
Qed.

Lemma exit_slot_ok st h code :
  slot_ok st -> live st h = true ->
  slot_ok (step (ChildExit h code) st) /\
  spawn_phase (length (heap st)) (step (ChildExit h code) st).
Proof.
  intros Hok Hlive.
  destruct (exit_unfold st h code Hok Hlive) as (c & pend & Hcur & _ & _ & Hp & ->).
  destruct (on_exit_slot_ok st h code Hok Hcur) as [Hok1 Hph1].
  split; [by apply pending_slot_ok | by apply pending_phase].
Qed.

(** ** Traces of the event loop *)

Lemma nonexit_slot_ok a st :
  is_exit a = false -> slot_ok st -> slot_ok (step a st).
Proof.
  destruct a; simpl; intros Ha Hok; try done.
  - by apply run_slot_ok.
  - eapply slot_frame_ok; [apply writeToStdin_frame|done].
  - eapply slot_frame_ok; [apply killProcess_frame|done].
  - eapply slot_frame_ok; [apply compileFiles_frame|done].
Qed.

Lemma nonexit_phase n a st :
  is_exit a = false -> spawn_phase n st -> spawn_phase n (step a st).
Proof.
  destruct a; simpl; intros Ha Hph; try done.
  - by apply run_phase.
  - eapply slot_frame_phase; [apply writeToStdin_frame|done].
  - eapply slot_frame_phase; [apply killProcess_frame|done].
  - eapply slot_frame_phase; [apply compileFiles_frame|done].
Qed.

Lemma step_slot_ok a st :
  enabled a st = true -> slot_ok st -> slot_ok (step a st).
Proof.
  intros Hen Hok. destruct (is_exit a) eqn:Ha; [|by apply nonexit_slot_ok].
  destruct a; try done. by apply exit_slot_ok.
Qed.

Lemma exec_app tr1 tr2 st : exec (tr1 ++ tr2) st = exec tr2 (exec tr1 st).
Proof. revert st. induction tr1 as [|a tr1 IH]; intros st; simpl; [done|]. apply IH. Qed.

Lemma valid_app tr1 tr2 st :
  valid (tr1 ++ tr2) st = valid tr1 st && valid tr2 (exec tr1 st).
Proof.
  revert st. induction tr1 as [|a tr1 IH]; intros st; simpl; [done|].
  by rewrite IH, andb_assoc.
Qed.

Lemma exec_slot_ok tr st :
  valid tr st = true -> slot_ok st -> slot_ok (exec tr st).
Proof.
  revert st. induction tr as [|a tr IH]; intros st; simpl; [done|].
  intros [Hen Hv]%andb_prop Hok. apply IH; [done|]. by apply step_slot_ok.
Qed.

Lemma exec_phase n tr st :
  forallb (fun a => negb (is_exit a)) tr = true ->
  spawn_phase n st -> spawn_phase n (exec tr st).
Proof.
  revert st. induction tr as [|a tr IH]; intros st; simpl; [done|].
  intros [Ha Htr]%andb_prop Hph. apply IH; [done|].
  apply nonexit_phase; [|done]. by destruct (is_exit a).
Qed.

Lemma init_slot_ok d : slot_ok (init_state d).
Proof. split; [done|]. intros h c Hc. simpl in Hc. by rewrite lookup_nil in Hc. Qed.

(** At most one child has not exited. *)
Lemma slot_ok_live st h1 h2 :
  slot_ok st -> live st h1 = true -> live st h2 = true -> h1 = h2.
Proof.
  intros [_ Hch] (c1 & Hc1 & Hx1)%live_lookup (c2 & Hc2 & Hx2)%live_lookup.
  destruct (Hch _ _ Hc1) as [[H1 _] _]. destruct (Hch _ _ Hc2) as [[H2 _] _].
  specialize (H1 Hx1). specialize (H2 Hx2). congruence.
Qed.

(** ** The listeners of a child that is not the current one *)

Lemma stale_listeners this code h ls st :
  currentProcess st = Some h -> h <> this ->
  currentProcess (foldl (call_exit_listener this code) st ls) = Some h.
Proof.
  intros Hcur Hne. revert st Hcur.
  induction ls as [|l ls IH]; intros st Hcur; simpl; [done|].
  apply IH. destruct l as [|d k]; simpl.
  - unfold on_exit. rewrite decide_False by congruence. done.
  - rewrite (run_live _ _ _ _ Hcur).
    change (currentProcess (update_child _ _ ?s)) with (currentProcess s).
    by rewrite killProcess_currentProcess.
Qed.

Lemma stale_exit this code h st :
  currentProcess st = Some h -> h <> this ->
  currentProcess (step (ChildExit this code) st) = Some h.
Proof.
  intros Hcur Hne. simpl. unfold emit_exit.
  destruct (heap (update_child this mark_exited st) !! this) as [c|]; [|done].
  by apply stale_listeners.
Qed.


Lemma killProcess_emitted st h :
  currentProcess st = Some h ->
  emitted (killProcess st) = emitted st ++ [Event "bracketsjdk" "output" nl].
Proof.
  unfold killProcess. intros ->. destruct is_win32; simpl; [|done].
  by destruct (heap st !! h).
Qed.

(** What [killProcess] does to the child it is asked to end. *)
Lemma killProcess_lookup_live st h c :
  currentProcess st = Some h -> heap st !! h = Some c ->
  heap (killProcess st) !! h =
    Some (if is_win32 then c else kill "SIGINT" c).
Proof.
  unfold killProcess. intros -> Hc. destruct is_win32.
  - change (heap (emitEvent _ _ _ st)) with (heap st). by rewrite Hc.
  - unfold update_child. simpl. rewrite list_lookup_alter_eq.
    unfold handle in *. by rewrite Hc.
Qed.

(** The restarts still pending when a child has just been spawned are
    moved to it, one call of [run] each. *)
Lemma pending_requeue this code pend st h c :
  Forall is_run_again pend ->
  currentProcess st = Some h -> heap st !! h = Some c ->
  currentProcess (foldl (call_exit_listener this code) st pend) = Some h /\
  length (heap (foldl (call_exit_listener this code) st pend)) = length (heap st) /\
  exists c', heap (foldl (call_exit_listener this code) st pend) !! h = Some c' /\
    child_on_exit c' = child_on_exit c ++ pend /\
    child_command c' = child_command c /\ child_cwd c' = child_cwd c /\
    child_exited c' = child_exited c.
Proof.
  intros Hp. revert st c.
  induction Hp as [|l pend Hl _ IH]; intros st c Hcur Hc; simpl.
  - repeat split; [done|]. exists c. by rewrite app_nil_r.
  - destruct l as [|d k]; [done|]. simpl.
    pose proof (killProcess_lookup_live st h c Hcur Hc) as Hk.
    set (ck := if is_win32 then c else kill "SIGINT" c) in Hk.
    assert (child_on_exit ck = child_on_exit c /\ child_command ck = child_command c
            /\ child_cwd ck = child_cwd c /\ child_exited ck = child_exited c)
      as (E1 & E2 & E3 & E4) by (unfold ck; by destruct is_win32).
    destruct (IH (run d k st) (add_exit_listener (RunAgain d k) ck))
      as (Hcur' & Hlen' & c' & Hc' & Hl' & ? & ? & ?).
    + rewrite (run_live _ _ _ _ Hcur).
      change (currentProcess (update_child _ _ ?s)) with (currentProcess s).
      by rewrite killProcess_currentProcess.
    + rewrite (run_live _ _ _ _ Hcur), update_child_lookup.
      rewrite decide_True by done. by rewrite Hk.
    + split; [done|]. split.
      * rewrite Hlen', (run_live _ _ _ _ Hcur), update_child_length.
        apply killProcess_length.
      * exists c'. split; [done|]. simpl in *.
        rewrite Hl', E1, <- app_assoc. repeat split; congruence.
Qed.

Lemma killProcess_detached st h c :
  currentProcess st = Some h -> heap st !! h = Some c ->
  detached (killProcess st) =
  detached st ++
    (if is_win32
     then ["taskkill /pid " +:+ pretty (child_pid c) +:+ " /T /F"] else []).
Proof.
  unfold killProcess. intros -> Hc. destruct is_win32.
  - change (heap (emitEvent _ _ _ st)) with (heap st). by rewrite Hc.
  - simpl. by rewrite app_nil_r.
Qed.

(** What the child in the slot has received once every restart of a
    pending list has been moved to it: one request for its end for each
    of them. *)
Lemma pending_requeue_full this code pend st h c :
  Forall is_run_again pend ->
  currentProcess st = Some h -> heap st !! h = Some c ->
  currentProcess (foldl (call_exit_listener this code) st pend) = Some h /\
  length (heap (foldl (call_exit_listener this code) st pend)) = length (heap st) /\
  emitted (foldl (call_exit_listener this code) st pend)
    = emitted st ++ replicate (length pend) (Event "bracketsjdk" "output" nl) /\
  detached (foldl (call_exit_listener this code) st pend)
    = detached st ++
      (if is_win32
       then replicate (length pend)
              ("taskkill /pid " +:+ pretty (child_pid c) +:+ " /T /F")
       else []) /\
  exists c', heap (foldl (call_exit_listener this code) st pend) !! h = Some c' /\
    child_on_exit c' = child_on_exit c ++ pend /\
    child_signals c' = child_signals c ++
      (if is_win32 then [] else replicate (length pend) "SIGINT") /\
    child_command c' = child_command c /\ child_cwd c' = child_cwd c /\
    child_exited c' = child_exited c /\ child_pid c' = child_pid c /\
    child_stdin c' = child_stdin c.
Proof.
  intros Hp. revert st c.
  induction Hp as [|l pend Hl _ IH]; intros st c Hcur Hc.
  - cbn [foldl length replicate].
    destruct is_win32; rewrite ?app_nil_r; (repeat split; try done);
      exists c; by rewrite ?app_nil_r.
  - destruct l as [|d k]; [done|].
    change (foldl (call_exit_listener this code) st (RunAgain d k :: pend))
      with (foldl (call_exit_listener this code) (run d k st) pend).
    pose proof (killProcess_lookup_live st h c Hcur Hc) as Hk.
    set (ck := if is_win32 then c else kill "SIGINT" c) in Hk.
    assert (heap (run d k st) !! h = Some (add_exit_listener (RunAgain d k) ck))
      as Hc1.
    { rewrite (run_live _ _ _ _ Hcur), update_child_lookup.
      rewrite decide_True by done. by rewrite Hk. }
    assert (currentProcess (run d k st) = Some h) as Hcur1.
    { rewrite (run_live _ _ _ _ Hcur).
      change (currentProcess (update_child _ _ ?s)) with (currentProcess s).
      by rewrite killProcess_currentProcess. }
    destruct (IH (run d k st) _ Hcur1 Hc1)
      as (Hcur' & Hlen' & Hem' & Hdet' & c' & Hc' & Hl' & Hs' & E1 & E2 & E3 & E4 & E5).
    assert (emitted (run d k st) = emitted st ++ [Event "bracketsjdk" "output" nl])
      as Hem1.
    { rewrite (run_live _ _ _ _ Hcur).
      change (emitted (update_child _ _ ?s)) with (emitted s).
      by eapply killProcess_emitted. }
    assert (detached (run d k st) = detached (killProcess st)) as Hdet1
      by (by rewrite (run_live _ _ _ _ Hcur)).
    assert (length (heap (run d k st)) = length (heap st)) as Hlen1.
    { rewrite (run_live _ _ _ _ Hcur), update_child_length.
      apply killProcess_length. }
    split; [done|]. split; [congruence|]. split; [|split].
    + rewrite Hem', Hem1, <- app_assoc. done.
    + rewrite Hdet', Hdet1, (killProcess_detached st h c Hcur Hc).
      unfold ck. destruct is_win32; simpl; rewrite <- app_assoc; done.
    + exists c'. split; [exact Hc'|]. rewrite Hl', Hs', E1, E2, E3, E4, E5.
      unfold ck. destruct is_win32; simpl; rewrite <- ?app_assoc; done.
Qed.

(** The exit of the child in the slot when a restart is pending on it,
    with all that can be seen of it. *)
Lemma exit_serves_head st h c code d1 k1 rest :
  currentProcess st = Some h -> heap st !! h = Some c ->
  child_on_exit c = ClearSlot :: RunAgain d1 k1 :: rest ->
  Forall is_run_again rest ->
  currentProcess (step (ChildExit h code) st) = Some (length (heap st)) /\
  length (heap (step (ChildExit h code) st)) = S (length (heap st)) /\
  emitted (step (ChildExit h code) st)
    = emitted st
      ++ [Event "bracketsjdk" "log"
            ("Java exited with code: " +:+ js_string_of_code code);
          Event "bracketsjdk" "output" nl;
          Event "bracketsjdk" "log" ("Running class " +:+ k1 +:+ "...")]
      ++ replicate (length rest) (Event "bracketsjdk" "output" nl) /\
  detached (step (ChildExit h code) st)
    = detached st ++
      (if is_win32
       then replicate (length rest)
              ("taskkill /pid " +:+ pretty (os_pid (length (heap st))) +:+ " /T /F")
       else []) /\
  exists c2, heap (step (ChildExit h code) st) !! length (heap st) = Some c2 /\
    child_command c2 = "java " +:+ k1 /\ child_cwd c2 = d1 /\
    child_on_exit c2 = ClearSlot :: rest /\ child_exited c2 = false /\
    child_signals c2 = (if is_win32 then [] else replicate (length rest) "SIGINT").
Proof.
  intros Hcur Hc Hl Hrest. simpl. unfold emit_exit. rewrite update_child_lookup.
  rewrite decide_True by done. rewrite Hc. simpl. rewrite Hl. simpl.
  set (st2 := on_exit h code (update_child h mark_exited st)).
  assert (currentProcess st2 = None /\ length (heap st2) = length (heap st) /\
          detached st2 = detached st /\
          emitted st2 = emitted st
            ++ [Event "bracketsjdk" "log"
                  ("Java exited with code: " +:+ js_string_of_code code);
                Event "bracketsjdk" "output" nl])
    as (Hcur2 & Hlen2 & Hdet2 & Hem2).
  { unfold st2, on_exit.
    change (currentProcess (update_child _ _ ?s)) with (currentProcess s).
    rewrite decide_True by done. simpl.
    by rewrite length_alter, <- app_assoc. }
  clearbody st2. set (st3 := run d1 k1 st2).
  assert (currentProcess st3 = Some (length (heap st))) as Hcur3.
  { unfold st3, run. rewrite Hcur2. simpl. by rewrite <- Hlen2. }
  assert (exists c3, heap st3 !! length (heap st) = Some c3 /\
            child_command c3 = "java " +:+ k1 /\ child_cwd c3 = d1 /\
            child_on_exit c3 = [ClearSlot] /\ child_exited c3 = false /\
            child_pid c3 = os_pid (length (heap st)) /\ child_signals c3 = [])
    as (c3 & Hc3 & F1 & F2 & F3 & F4 & F5 & F6).
  { unfold st3, run. rewrite Hcur2. simpl. rewrite <- Hlen2.
    eexists. split; [apply list_lookup_middle; done|]. done. }
  assert (length (heap st3) = S (length (heap st))) as Hlen3.
  { unfold st3, run. rewrite Hcur2. simpl. rewrite length_app. simpl. lia. }
  assert (emitted st3 = emitted st2
            ++ [Event "bracketsjdk" "log" ("Running class " +:+ k1 +:+ "...")])
    as Hem3 by (unfold st3, run; by rewrite Hcur2).
  assert (detached st3 = detached st2) as Hdet3
    by (unfold st3, run; by rewrite Hcur2).
  clearbody st3.
  destruct (pending_requeue_full h code rest st3 _ c3 Hrest Hcur3 Hc3)
    as (Hcur4 & Hlen4 & Hem4 & Hdet4 & c4 & Hc4 & Hl4 & Hs4 & G1 & G2 & G3 & _).
  split; [done|]. split; [by rewrite Hlen4|]. split; [|split].
  - rewrite Hem4, Hem3, Hem2, <- !app_assoc. done.
  - by rewrite Hdet4, Hdet3, Hdet2, F5.
  - exists c4. split; [exact Hc4|].
    rewrite Hl4, Hs4, G1, G2, G3, F1, F2, F3, F4, F6. done.
Qed.

(** ** The process supervisor *)

(** C1, as the code has it. A call of [run] made while child [h] is
    current adds its pair at the end of the restarts pending on [h], none
    of which is dropped or overwritten, emits one line feed and asks for
    the end of [h] (SIGINT, or one [taskkill] on win32). When [h] then
    exits, the pair launched is the one at the head of that queue (the
    oldest). The rest of the queue is moved, in order, to the child just
    spawned, which becomes the current one and is asked to end once for
    each request moved; the next request is launched at the exit of that
    child. *)
Theorem run_while_live_queues st h c pend directory className code d1 k1 rest :
  currentProcess st = Some h ->
  heap st !! h = Some c ->
  child_on_exit c = ClearSlot :: pend ->
  Forall is_run_again pend ->
  pend ++ [RunAgain directory className] = RunAgain d1 k1 :: rest ->
  (exists c1, heap (run directory className st) !! h = Some c1 /\
     child_on_exit c1 = ClearSlot :: pend ++ [RunAgain directory className] /\
     child_signals c1
       = child_signals c ++ (if is_win32 then [] else ["SIGINT"])) /\
  emitted (run directory className st)
    = emitted st ++ [Event "bracketsjdk" "output" nl] /\
  detached (run directory className st)
    = detached st ++
      (if is_win32
       then ["taskkill /pid " +:+ pretty (child_pid c) +:+ " /T /F"] else []) /\
  currentProcess (step (ChildExit h code) (run directory className st))
    = Some (length (heap st)) /\
  length (heap (step (ChildExit h code) (run directory className st)))
    = S (length (heap st)) /\
  emitted (step (ChildExit h code) (run directory className st))
    = emitted (run directory className st)
      ++ [Event "bracketsjdk" "log"
            ("Java exited with code: " +:+ js_string_of_code code);
          Event "bracketsjdk" "output" nl;
          Event "bracketsjdk" "log" ("Running class " +:+ k1 +:+ "...")]
      ++ replicate (length rest) (Event "bracketsjdk" "output" nl) /\
  detached (step (ChildExit h code) (run directory className st))
    = detached (run directory className st) ++
      (if is_win32
       then replicate (length rest)
              ("taskkill /pid " +:+ pretty (os_pid (length (heap st))) +:+ " /T /F")
       else []) /\
  (exists c2,
     heap (step (ChildExit h code) (run directory className st))
       !! length (heap st) = Some c2 /\
     child_command c2 = "java " +:+ k1 /\ child_cwd c2 = d1 /\
     child_on_exit c2 = ClearSlot :: rest /\ child_exited c2 = false /\
     child_signals c2
       = (if is_win32 then [] else replicate (length rest) "SIGINT")) /\
  (forall code2 d2 k2 rest2,
     rest = RunAgain d2 k2 :: rest2 ->
     currentProcess
       (step (ChildExit (length (heap st)) code2)
          (step (ChildExit h code) (run directory className st)))
       = Some (S (length (heap st))) /\
     exists c3,
       heap (step (ChildExit (length (heap st)) code2)
               (step (ChildExit h code) (run directory className st)))
         !! S (length (heap st)) = Some c3 /\
       child_command c3 = "java " +:+ k2 /\ child_cwd c3 = d2 /\
       child_on_exit c3 = ClearSlot :: rest2).
Proof.
  intros Hcur Hc Hl Hp Hq.
  pose proof (killProcess_lookup_live st h c Hcur Hc) as Hk.
  set (ck := if is_win32 then c else kill "SIGINT" c) in Hk.
  assert (child_on_exit ck = child_on_exit c /\
          child_signals ck
            = child_signals c ++ (if is_win32 then [] else ["SIGINT"]))
    as [E1 E2] by (unfold ck; destruct is_win32; by rewrite ?app_nil_r).
  set (c1 := add_exit_listener (RunAgain directory className) ck).
  assert (heap (run directory className st) !! h = Some c1) as Hc1.
  { rewrite (run_live _ _ _ _ Hcur), update_child_lookup.
    rewrite decide_True by done. by rewrite Hk. }
  assert (child_on_exit c1 = ClearSlot :: RunAgain d1 k1 :: rest) as Hl1.
  { simpl. by rewrite E1, Hl, <- Hq. }
  assert (child_signals c1
          = child_signals c ++ (if is_win32 then [] else ["SIGINT"])) as Hs1
    by done.
  assert (currentProcess (run directory className st) = Some h) as Hcur1.
  { rewrite (run_live _ _ _ _ Hcur).
    change (currentProcess (update_child _ _ ?s)) with (currentProcess s).
    by rewrite killProcess_currentProcess. }
  assert (length (heap (run directory className st)) = length (heap st)) as Hlen1.
  { rewrite (run_live _ _ _ _ Hcur), update_child_length.
    apply killProcess_length. }
  assert (emitted (run directory className st)
          = emitted st ++ [Event "bracketsjdk" "output" nl]) as Hem1.
  { rewrite (run_live _ _ _ _ Hcur).
    change (emitted (update_child _ _ ?s)) with (emitted s).
    by eapply killProcess_emitted. }
  assert (detached (run directory className st) = detached (killProcess st))
    as Hdet1 by (by rewrite (run_live _ _ _ _ Hcur)).
  assert (Forall is_run_again rest) as Hrest.
  { assert (Forall is_run_again (RunAgain d1 k1 :: rest)) as Hall.
    { rewrite <- Hq. apply Forall_app. split; [done|]. by repeat constructor. }
    by inversion Hall. }
  clearbody c1.
  split. { exists c1. split; [done|]. split; [by rewrite Hq, <- Hl1|done]. }
  split; [done|].
  split. { rewrite Hdet1. exact (killProcess_detached st h c Hcur Hc). }
  set (st1 := run directory className st) in *. clearbody st1.
  destruct (exit_serves_head st1 h c1 code d1 k1 rest Hcur1 Hc1 Hl1 Hrest)
    as (Hcur2 & Hlen2 & Hem2 & Hdet2 & c2 & Hc2 & K1 & K2 & K3 & K4 & K5).
  rewrite Hlen1 in Hcur2, Hlen2, Hdet2, Hc2.
  split; [done|]. split; [done|]. split; [done|]. split; [done|].
  split. { exists c2. split; [exact Hc2|]. done. }
  intros code2 d2 k2 rest2 ->.
  set (st2 := step (ChildExit h code) st1) in *. clearbody st2.
  assert (Forall is_run_again rest2) as Hrest2 by (by inversion Hrest).
  destruct (exit_serves_head st2 (length (heap st)) c2 code2 d2 k2 rest2
              Hcur2 Hc2 K3 Hrest2)
    as (Hcur3 & _ & _ & _ & c3 & Hc3 & D1 & D2 & D3 & _).
  rewrite Hlen2 in Hcur3, Hc3.
  split; [done|]. exists c3. split; [exact Hc3|]. done.
Qed.

(** C2. The listener of lines 113-120 clears the slot when the child it
    is called for is the one recorded as current, and leaves the slot as
    it is otherwise; whatever listeners a child that is not the current
    one carries, its exit leaves the current handle in place. *)
Theorem exit_clears_only_current this code st :
  (currentProcess st = Some this ->
   currentProcess (on_exit this code st) = None) /\
  (forall h, currentProcess st = Some h -> h <> this ->
     currentProcess (on_exit this code st) = Some h /\
     currentProcess (step (ChildExit this code) st) = Some h).
Proof.
  split.
  - intros Hcur. unfold on_exit. by rewrite decide_True.
  - intros h Hcur Hne. split; [|by apply stale_exit].
    unfold on_exit. rewrite decide_False by congruence. done.
Qed.

(** C3. A call of [run] made while a child is current spawns nothing.
    In every state the event loop reaches, at most one child has not
    exited. Between the exit of a child and the next exit, the number of
    children spawned grows by exactly one. *)
Theorem single_live_process :
  (forall directory className st h,
     currentProcess st = Some h ->
     heap (run directory className st) !! length (heap st) = None /\
     length (heap (run directory className st)) = length (heap st)) /\
  (forall d tr h1 h2,
     valid tr (init_state d) = true ->
     live (exec tr (init_state d)) h1 = true ->
     live (exec tr (init_state d)) h2 = true -> h1 = h2) /\
  (forall d pre h1 code1 mid h2 code2,
     valid (pre ++ ChildExit h1 code1 :: mid ++ [ChildExit h2 code2])
       (init_state d) = true ->
     forallb (fun a => negb (is_exit a)) mid = true ->
     length (heap (exec (pre ++ ChildExit h1 code1 :: mid) (init_state d)))
     = S (length (heap (exec pre (init_state d))))).
Proof.
  split; [|split].
  - intros directory className st h Hcur.
    assert (length (heap (run directory className st)) = length (heap st)) as E.
    { rewrite (run_live _ _ _ _ Hcur), update_child_length.
      apply killProcess_length. }
    split; [|done]. apply lookup_ge_None. lia.
  - intros d tr h1 h2 Hv. apply slot_ok_live.
    apply exec_slot_ok; [done|apply init_slot_ok].
  - intros d pre h1 code1 mid h2 code2 Hv Hmid.
    rewrite valid_app in Hv. apply andb_prop in Hv as [Hpre Hv].
    simpl in Hv. apply andb_prop in Hv as [Hen1 Hv].
    rewrite valid_app in Hv. apply andb_prop in Hv as [Hvmid Hv].
    simpl in Hv. rewrite andb_true_r in Hv.
    set (s0 := exec pre (init_state d)) in *.
    assert (slot_ok s0) as Hok0 by (apply exec_slot_ok; [done|apply init_slot_ok]).
    destruct (exit_slot_ok s0 h1 code1 Hok0 Hen1) as [Hok1 Hph1].
    set (s1 := step (ChildExit h1 code1) s0) in *.
    assert (slot_ok (exec mid s1)) as Hok2 by (by apply exec_slot_ok).
    assert (spawn_phase (length (heap s0)) (exec mid s1)) as Hph2
      by (by apply exec_phase).
    rewrite exec_app. simpl. fold s0. fold s1.
    apply live_lookup in Hv as (c & Hc & Hx).
    destruct Hok2 as [_ Hch]. destruct (Hch _ _ Hc) as [[Hcur _] _].
    unfold spawn_phase in Hph2. by rewrite (Hcur Hx) in Hph2.
Qed.

(** C7. With no current process, [killProcess] returns with nothing
    done: no event, no signal, no command. *)
Theorem killProcess_idle st :
  currentProcess st = None -> killProcess st = st.
Proof. unfold killProcess. by intros ->. Qed.


(** C9. With no current process [writeToStdin] does nothing; with
    child [h] current it appends the text, as given, to what was written
    to the standard input of [h], and touches nothing else. *)
Theorem writeToStdin_spec input st :
  (currentProcess st = None -> writeToStdin input st = st) /\
  (forall h c, currentProcess st = Some h -> heap st !! h = Some c ->
     exists c', heap (writeToStdin input st) !! h = Some c' /\
       child_stdin c' = child_stdin c ++ [input] /\
       child_signals c' = child_signals c /\
       child_on_exit c' = child_on_exit c /\
       (forall h', h' <> h ->
          heap (writeToStdin input st) !! h' = heap st !! h') /\
       emitted (writeToStdin input st) = emitted st /\
       currentProcess (writeToStdin input st) = Some h).
Proof.
  unfold writeToStdin. split; [by intros ->|].
  intros h c Hcur Hc. rewrite Hcur. exists (stdin_write input c).
  split; [|repeat split; try done].
  - rewrite update_child_lookup, decide_True by done. by rewrite Hc.
  - intros h' Hne. rewrite update_child_lookup. by rewrite decide_False.
Qed.

(** C10. A call of [run] made while child [h] is current returns with
    [h] still in the slot, and has emitted the ["output"] line feed of
    [killProcess] and nothing else. The ["log"] event of the new run
    comes with the exit of [h]: when [h] carried no other restart, the
    events of that exit are the two of lines 118-119 followed by it. *)
Theorem run_while_live_frame directory className st h :
  currentProcess st = Some h ->
  currentProcess (run directory className st) = Some h /\
  emitted (run directory className st)
    = emitted st ++ [Event "bracketsjdk" "output" nl] /\
  (forall c code, heap st !! h = Some c -> child_on_exit c = [ClearSlot] ->
     emitted (step (ChildExit h code) (run directory className st))
     = emitted (run directory className st)
       ++ [Event "bracketsjdk" "log"
             ("Java exited with code: " +:+ js_string_of_code code);
           Event "bracketsjdk" "output" nl;
           Event "bracketsjdk" "log" ("Running class " +:+ className +:+ "...")]).
Proof.
  intros Hcur. rewrite (run_live _ _ _ _ Hcur).
  change (currentProcess (update_child _ _ ?s)) with (currentProcess s).
  change (emitted (update_child _ _ ?s)) with (emitted s).
  rewrite killProcess_currentProcess, (killProcess_emitted _ _ Hcur).
  split; [done|]. split; [done|]. intros c code Hc Hl.
  pose proof (killProcess_lookup_live st h c Hcur Hc) as Hk.
  set (ck := if is_win32 then c else kill "SIGINT" c) in Hk.
  assert (child_on_exit ck = [ClearSlot]) as E1
    by (unfold ck; by destruct is_win32).
  set (st1 := update_child h _ (killProcess st)).
  assert (heap st1 !! h = Some (add_exit_listener (RunAgain directory className) ck))
    as Hc1.
  { unfold st1. rewrite update_child_lookup, decide_True by done. by rewrite Hk. }
  assert (currentProcess st1 = Some h) as Hcur1.
  { unfold st1.
    change (currentProcess (update_child _ _ ?s)) with (currentProcess s).
    by rewrite killProcess_currentProcess. }
  assert (emitted st1 = emitted st ++ [Event "bracketsjdk" "output" nl]) as Hem1.
  { unfold st1. change (emitted (update_child _ _ ?s)) with (emitted s).
    by eapply killProcess_emitted. }
  clearbody st1. simpl. unfold emit_exit. rewrite update_child_lookup.
  rewrite decide_True by done. rewrite Hc1. simpl. rewrite E1. simpl.
  unfold on_exit.
  change (currentProcess (update_child _ _ ?s)) with (currentProcess s).
  rewrite decide_True by done. unfold run. simpl.
  change (emitted (update_child _ _ ?s)) with (emitted s).
  rewrite Hem1. by rewrite <- !app_assoc.
Qed.

(** ** The compiler gateway *)

Lemma execSync_shell_frame cmd cwd st :
  shell_frame st (snd (execSync cmd cwd st)).
Proof.
  unfold execSync. by destruct (shell cmd cwd (disk st)) as [d [|err]].
Qed.

Lemma createDir_shell_frame dir st : shell_frame st (createDir dir st).
Proof. unfold createDir. destruct is_win32; apply execSync_shell_frame. Qed.

Lemma emptyDir_shell_frame dir st : shell_frame st (snd (emptyDir dir st)).
Proof.
  unfold emptyDir. destruct is_win32; simpl; [apply execSync_shell_frame|].
  pose proof (execSync_shell_frame
    ("rm -rf " +:+ dq +:+ dir +:+ dq +:+ "*") None st) as H.
  by destruct execSync as [[err|] st'].
Qed.

Lemma shell_frame_trans st1 st2 st3 :
  shell_frame st1 st2 -> shell_frame st2 st3 -> shell_frame st1 st3.
Proof.
  intros (? & ? & ? & ?) (? & ? & ? & ?). repeat split; congruence.
Qed.

(** The whole of [compileFiles] on a list that is not empty, in terms of
    what the three commands do. *)
Lemma compileFiles_unfold filePaths outputPath st d1 r1 d2 r2 d3 r3 :
  filePaths <> [] ->
  shell (create_command outputPath) None (disk st) = (d1, r1) ->
  shell (clear_command outputPath) (clear_cwd outputPath) d1 = (d2, r2) ->
  shell (javac_command filePaths outputPath) None d2 = (d3, r3) ->
  compileFiles filePaths outputPath st =
    match r2, is_win32 with
    | ExitNonZero err, false =>
        (Thrown err,
         {| currentProcess := currentProcess st; heap := heap st;
            emitted := emitted st; detached := detached st; disk := d2;
            sh_log := sh_log st
              ++ [ShCall (create_command outputPath) None (disk st);
                  ShCall (clear_command outputPath) (clear_cwd outputPath) d1] |})
    | _, _ =>
        (Returned (match r3 with Exit0 => true | ExitNonZero _ => false end),
         {| currentProcess := currentProcess st; heap := heap st;
            emitted := emitted st
              ++ [Event "bracketsjdk" "log" "Compiling...";
                  match r3 with
                  | Exit0 => Event "bracketsjdk" "log" "Done."
                  | ExitNonZero err => Event "bracketsjdk" "error" err
                  end];
            detached := detached st; disk := d3;
            sh_log := sh_log st
              ++ [ShCall (create_command outputPath) None (disk st);
                  ShCall (clear_command outputPath) (clear_cwd outputPath) d1;
                  ShCall (javac_command filePaths outputPath) None d2] |})
    end.
Proof.
  intros Hne H1 H2 H3. unfold compileFiles.
  rewrite decide_False by (by destruct filePaths).
  unfold createDir, emptyDir, create_command, clear_command, clear_cwd,
    javac_command in *.
  destruct is_win32; cbv beta iota in *.
  - set (c1 := "md " +:+ _) in *. set (c2 := "rmdir /S /Q " +:+ _) in *.
    set (c3 := "javac " +:+ _) in *. clearbody c1 c2 c3.
    unfold execSync; simpl; rewrite H1; simpl.
    destruct r1; simpl; rewrite H2; destruct r2; simpl; rewrite H3;
      destruct r3; unfold emitEvent; simpl; by rewrite <- !app_assoc.
  - set (c1 := "mkdir -p " +:+ _) in *. set (c2 := "rm -rf " +:+ _) in *.
    set (c3 := "javac " +:+ _) in *. clearbody c1 c2 c3.
    unfold execSync; simpl; rewrite H1; simpl.
    destruct r1; simpl; rewrite H2; destruct r2; simpl;
      rewrite <- ?app_assoc; try done;
      rewrite H3; destruct r3; unfold emitEvent; simpl; by rewrite <- !app_assoc.
Qed.

(** C4. On an empty list [compileFiles] returns [false] at once: the
    state it leaves is the one it found, so that no command was run, the
    disk is as it was and no event was emitted. *)
Theorem compileFiles_empty outputPath st :
  compileFiles [] outputPath st = (Returned false, st) /\
  sh_log (snd (compileFiles [] outputPath st)) = sh_log st /\
  disk (snd (compileFiles [] outputPath st)) = disk st /\
  emitted (snd (compileFiles [] outputPath st)) = emitted st.
Proof. unfold compileFiles. rewrite decide_True by done. done. Qed.

(** C6. Once the directory has been made and cleared, [compileFiles]
    emits ["log"] "Compiling..." and runs [javac]. When [javac] exits
    with a status that is not zero, one ["error"] event follows, holding
    what [javac] wrote on its error stream, and [false] is returned; when
    it exits with zero, ["log"] "Done." follows and [true] is returned. *)
Theorem compileFiles_javac filePaths outputPath st st2 d r :
  filePaths <> [] ->
  emptyDir outputPath (createDir outputPath st) = (Returned tt, st2) ->
  shell (javac_command filePaths outputPath) None (disk st2) = (d, r) ->
  match r with
  | Exit0 =>
      fst (compileFiles filePaths outputPath st) = Returned true /\
      emitted (snd (compileFiles filePaths outputPath st))
      = emitted st ++ [Event "bracketsjdk" "log" "Compiling...";
                       Event "bracketsjdk" "log" "Done."]
  | ExitNonZero err =>
      fst (compileFiles filePaths outputPath st) = Returned false /\
      emitted (snd (compileFiles filePaths outputPath st))
      = emitted st ++ [Event "bracketsjdk" "log" "Compiling...";
                       Event "bracketsjdk" "error" err]
  end.
Proof.
  intros Hne Hdir Hjavac.
  assert (emitted st2 = emitted st) as Hem.
  { pose proof (emptyDir_shell_frame outputPath (createDir outputPath st)) as H2.
    rewrite Hdir in H2. destruct H2 as (_ & _ & H2 & _).
    destruct (createDir_shell_frame outputPath st) as (_ & _ & H1 & _).
    simpl in H2. congruence. }
  unfold compileFiles. rewrite decide_False by (by destruct filePaths).
  rewrite Hdir. unfold javac_command in *.
  set (c3 := "javac " +:+ _) in *. clearbody c3.
  unfold execSync. simpl. rewrite Hjavac.
  destruct r; simpl; rewrite Hem, <- app_assoc; done.
Qed.

(** ** Events *)

Lemma emits_refl st : emits st st.
Proof. exists []. by rewrite app_nil_r. Qed.

Lemma emits_trans st1 st2 st3 : emits st1 st2 -> emits st2 st3 -> emits st1 st3.
Proof.
  intros (e1 & H1 & F1) (e2 & H2 & F2). exists (e1 ++ e2). split.
  - by rewrite H2, H1, app_assoc.
  - by apply Forall_app.
Qed.

Lemma emits_same st st' : emitted st' = emitted st -> emits st st'.
Proof. intros H. exists []. by rewrite app_nil_r. Qed.

Lemma emitEvent_emits name payload st :
  name = "log" \/ name = "output" \/ name = "error" ->
  emits st (emitEvent "bracketsjdk" name payload st).
Proof.
  intros H. exists [Event "bracketsjdk" name payload]. split; [done|].
  constructor; [by split|constructor].
Qed.

Lemma killProcess_emits st : emits st (killProcess st).
Proof.
  destruct (currentProcess st) as [h|] eqn:E.
  - exists [Event "bracketsjdk" "output" nl].
    split; [by eapply killProcess_emitted|].
    constructor; [split; auto|constructor].
  - unfold killProcess. rewrite E. apply emits_refl.
Qed.

Lemma run_emits directory className st : emits st (run directory className st).
Proof.
  destruct (currentProcess st) as [h|] eqn:E.
  - rewrite (run_live _ _ _ _ E). eapply emits_trans; [apply killProcess_emits|].
    by apply emits_same.
  - unfold run. rewrite E.
    exists [Event "bracketsjdk" "log" ("Running class " +:+ className +:+ "...")].
    split; [done|]. constructor; [split; auto|constructor].
Qed.

Lemma on_exit_emitted this code st :
  emitted (on_exit this code st) =
  emitted st ++ [Event "bracketsjdk" "log"
                   ("Java exited with code: " +:+ js_string_of_code code);
                 Event "bracketsjdk" "output" nl].
Proof.
  unfold on_exit. destruct (decide (currentProcess st = Some this)); simpl;
    by rewrite <- app_assoc.
Qed.

Lemma call_exit_listener_emits this code st l :
  emits st (call_exit_listener this code st l).
Proof.
  destruct l as [|d k]; simpl; [|apply run_emits].
  eexists. split; [apply on_exit_emitted|].
  constructor; [split; auto|]. constructor; [split; auto|constructor].
Qed.

Lemma listeners_emit this code ls st :
  emits st (foldl (call_exit_listener this code) st ls).
Proof.
  revert st. induction ls as [|l ls IH]; intros st; simpl; [apply emits_refl|].
  eapply emits_trans; [apply call_exit_listener_emits|apply IH].
Qed.

Lemma compileFiles_emits filePaths outputPath st :
  emits st (snd (compileFiles filePaths outputPath st)).
Proof.
  destruct (decide (filePaths = [])) as [->|Hne]; [apply emits_refl|].
  destruct (shell (create_command outputPath) None (disk st)) as [d1 r1] eqn:H1.
  destruct (shell (clear_command outputPath) (clear_cwd outputPath) d1)
    as [d2 r2] eqn:H2.
  destruct (shell (javac_command filePaths outputPath) None d2) as [d3 r3] eqn:H3.
  rewrite (compileFiles_unfold _ _ _ _ _ _ _ _ _ Hne H1 H2 H3).
  assert (emits st
    {| currentProcess := currentProcess st; heap := heap st;
       emitted := emitted st
         ++ [Event "bracketsjdk" "log" "Compiling...";
             match r3 with
             | Exit0 => Event "bracketsjdk" "log" "Done."
             | ExitNonZero err => Event "bracketsjdk" "error" err
             end];
       detached := detached st; disk := d3;
       sh_log := sh_log st
         ++ [ShCall (create_command outputPath) None (disk st);
             ShCall (clear_command outputPath) (clear_cwd outputPath) d1;
             ShCall (javac_command filePaths outputPath) None d2] |}) as Hjavac.
  { eexists. split; [done|].
    constructor; [split; auto|]. constructor; [|constructor].
    destruct r3; split; auto. }
  destruct r2; [done|]. destruct is_win32; [done|]. by apply emits_same.
Qed.

Lemma step_emits a st : emits st (step a st).
Proof.
  destruct a; simpl.
  - apply run_emits.
  - apply emits_same. unfold writeToStdin. by destruct (currentProcess st).
  - apply killProcess_emits.
  - apply compileFiles_emits.
  - apply emitEvent_emits. auto.
  - apply emitEvent_emits. auto.
  - unfold emit_exit. destruct (heap _ !! h) as [c|]; [|by apply emits_same].
    eapply emits_trans; [|apply listeners_emit]. by apply emits_same.
Qed.

Lemma exec_emits tr st : emits st (exec tr st).
Proof.
  revert st. induction tr as [|a tr IH]; intros st; simpl; [apply emits_refl|].
  eapply emits_trans; [apply step_emits|apply IH].
Qed.

(** Whatever happens, the events sent to the domain manager are of a
    name and a domain that [init] has registered, and an event once
    sent stays where it is in the sequence. *)
Theorem events_are_registered hasDomain tr st :
  exists evs,
    emitted (exec tr st) = emitted st ++ evs /\
    Forall (fun e => event_registered (init hasDomain) e = true) evs.
Proof.
  destruct (exec_emits tr st) as (evs & Hevs & Hall). exists evs. split; [done|].
  eapply Forall_impl; [exact Hall|]. intros [domain name payload] [Hd Hn].
  simpl in Hd, Hn. subst domain.
  destruct hasDomain; destruct Hn as [-> | [-> | ->]]; reflexivity.
Qed.

(** In every state the event loop reaches, the child in the slot is the
    one child that has not exited: the slot is never left holding a
    child that is gone, and no child runs outside of it. *)
Theorem slot_holds_the_live_child d tr h :
  valid tr (init_state d) = true ->
  live (exec tr (init_state d)) h = true <->
  currentProcess (exec tr (init_state d)) = Some h.
Proof.
  intros Hv.
  assert (slot_ok (exec tr (init_state d))) as [Hin Hch]
    by (apply exec_slot_ok; [done|apply init_slot_ok]).
  rewrite live_lookup. split.
  - intros (c & Hc & Hx). by apply (Hch _ _ Hc).
  - intros Hcur. destruct (Hin _ Hcur) as [c Hc]. exists c. split; [done|].
    by apply (Hch _ _ Hc).
Qed.

(** When the event loop reports the exit of a child, the test of line
    116 holds, the slot is cleared, and the two events of lines 118-119
    are the first to be emitted, before those of any restart. *)
Theorem exit_events_come_first d tr h code :
  valid (tr ++ [ChildExit h code]) (init_state d) = true ->
  currentProcess (exec tr (init_state d)) = Some h /\
  exists evs,
    emitted (exec (tr ++ [ChildExit h code]) (init_state d)) =
    emitted (exec tr (init_state d))
      ++ [Event "bracketsjdk" "log"
            ("Java exited with code: " +:+ js_string_of_code code);
          Event "bracketsjdk" "output" nl]
      ++ evs.
Proof.
  rewrite valid_app, exec_app. intros [Hv Hen]%andb_prop.
  simpl in Hen. rewrite andb_true_r in Hen.
  assert (slot_ok (exec tr (init_state d))) as Hok
    by (apply exec_slot_ok; [done|apply init_slot_ok]).
  set (st := exec tr (init_state d)) in *.
  destruct (exit_unfold st h code Hok Hen) as (c & pend & Hcur & _ & _ & _ & Hstep).
  split; [done|]. change (exec [ChildExit h code] st) with (step (ChildExit h code) st).
  rewrite Hstep.
  destruct (listeners_emit h code pend (on_exit h code (update_child h mark_exited st)))
    as (evs & -> & _).
  exists evs. rewrite on_exit_emitted. by rewrite <- app_assoc.
Qed.

(** ** Restarts asked for while a child runs *)

Lemma alter_commands (f : child -> child) h (l : list child) :
  (forall c, child_command (f c) = child_command c) ->
  child_command <$> alter f h l = child_command <$> l.
Proof.
  intros Hf. apply list_eq. intros i. rewrite !list_lookup_fmap.
  destruct (decide (h = i)) as [->|Hne].
  - rewrite list_lookup_alter_eq. destruct (l !! i); simpl; [by rewrite Hf|done].
  - by rewrite list_lookup_alter_ne.
Qed.

Lemma killProcess_commands st :
  child_command <$> heap (killProcess st) = child_command <$> heap st.
Proof.
  unfold killProcess. destruct (currentProcess st) as [h|]; [|done].
  destruct is_win32; simpl.
  - by destruct (heap st !! h).
  - by apply alter_commands.
Qed.

Lemma run_live_commands directory className st h :
  currentProcess st = Some h ->
  child_command <$> heap (run directory className st) = child_command <$> heap st.
Proof.
  intros Hcur. rewrite (run_live _ _ _ _ Hcur). unfold update_child. simpl.
  rewrite alter_commands by done. apply killProcess_commands.
Qed.

Lemma run_live_currentProcess directory className st h :
  currentProcess st = Some h ->
  currentProcess (run directory className st) = Some h.
Proof.
  intros Hcur. rewrite (run_live _ _ _ _ Hcur).
  change (currentProcess (update_child _ _ ?s)) with (currentProcess s).
  by rewrite killProcess_currentProcess.
Qed.

Lemma pending_commands this code pend st h :
  Forall is_run_again pend -> currentProcess st = Some h ->
  child_command <$> heap (foldl (call_exit_listener this code) st pend)
  = child_command <$> heap st.
Proof.
  intros Hp. revert st. induction Hp as [|l pend Hl _ IH]; intros st Hcur; [done|].
  destruct l as [|d k]; [done|]. simpl.
  rewrite IH by (by apply run_live_currentProcess).
  by eapply run_live_commands.
Qed.

Lemma requests_run_again (reqs : list (string * string)) :
  Forall is_run_again (map (fun r => RunAgain r.1 r.2) reqs).
Proof. induction reqs; by constructor. Qed.

(** The exit of the current child when a restart is pending on it. *)
Lemma exit_launches_head st h c code d1 k1 rest :
  currentProcess st = Some h -> heap st !! h = Some c ->
  child_on_exit c = ClearSlot :: RunAgain d1 k1 :: rest ->
  Forall is_run_again rest ->
  currentProcess (step (ChildExit h code) st) = Some (length (heap st)) /\
  length (heap (step (ChildExit h code) st)) = S (length (heap st)) /\
  child_command <$> heap (step (ChildExit h code) st)
    = (child_command <$> heap st) ++ ["java " +:+ k1] /\
  exists c2, heap (step (ChildExit h code) st) !! length (heap st) = Some c2 /\
    child_on_exit c2 = ClearSlot :: rest.
Proof.
  intros Hcur Hc Hl Hrest. simpl. unfold emit_exit. rewrite update_child_lookup.
  rewrite decide_True by done. rewrite Hc. simpl. rewrite Hl. simpl.
  set (st2 := on_exit h code (update_child h mark_exited st)).
  assert (currentProcess st2 = None) as Hcur2.
  { unfold st2, on_exit.
    change (currentProcess (update_child _ _ ?s)) with (currentProcess s).
    by rewrite decide_True. }
  assert (heap st2 = alter mark_exited h (heap st)) as Hheap2.
  { unfold st2, on_exit.
    change (currentProcess (update_child _ _ ?s)) with (currentProcess s).
    by rewrite decide_True. }
  assert (length (heap st2) = length (heap st)) as Hlen2
    by (by rewrite Hheap2, length_alter).
  assert (child_command <$> heap st2 = child_command <$> heap st) as Hcmd2
    by (rewrite Hheap2; by apply alter_commands).
  clearbody st2. set (st3 := run d1 k1 st2).
  assert (currentProcess st3 = Some (length (heap st))) as Hcur3.
  { unfold st3, run. rewrite Hcur2. simpl. by rewrite <- Hlen2. }
  assert (exists c3, heap st3 !! length (heap st) = Some c3 /\
            child_on_exit c3 = [ClearSlot]) as (c3 & Hc3 & Hl3).
  { unfold st3, run. rewrite Hcur2. simpl. rewrite <- Hlen2.
    eexists. split; [apply list_lookup_middle; done|]. done. }
  assert (length (heap st3) = S (length (heap st))) as Hlen3.
  { unfold st3, run. rewrite Hcur2. simpl. rewrite length_app. simpl. lia. }
  assert (child_command <$> heap st3
          = (child_command <$> heap st) ++ ["java " +:+ k1]) as Hcmd3.
  { unfold st3, run. rewrite Hcur2. simpl. by rewrite fmap_app, Hcmd2. }
  destruct (pending_requeue h code rest st3 _ c3 Hrest Hcur3 Hc3)
    as (Hcur4 & Hlen4 & c4 & Hc4 & Hl4 & _).
  split; [done|]. split; [by rewrite Hlen4|]. split.
  - by rewrite (pending_commands _ _ _ _ _ Hrest Hcur3).
  - exists c4. split; [exact Hc4|]. by rewrite Hl4, Hl3.
Qed.

(** Every restart asked for while a child runs is served: when the
    child in the slot exits as many times as there are requests pending
    on the first one, the classes launched are those of the requests,
    one per exit and in the order they were asked for, and the last one
    is left running with nothing pending on it. *)
Theorem exit_all_serves_queue reqs codes st h c :
  currentProcess st = Some h -> heap st !! h = Some c ->
  child_on_exit c = ClearSlot :: map (fun r => RunAgain r.1 r.2) reqs ->
  length codes = length reqs ->
  child_command <$> heap (exit_all codes st)
    = (child_command <$> heap st) ++ map (fun r => "java " +:+ r.2) reqs /\
  currentProcess (exit_all codes st)
    = Some (match reqs with
            | [] => h
            | _ :: _ => length (heap st) + length reqs - 1
            end) /\
  exists c',
    heap (exit_all codes st)
      !! (match reqs with
          | [] => h
          | _ :: _ => length (heap st) + length reqs - 1
          end) = Some c' /\
    child_on_exit c' = [ClearSlot].
Proof.
  revert codes st h c. induction reqs as [|[d1 k1] reqs IH];
    intros codes st h c Hcur Hc Hl Hlen.
  - destruct codes; [|done]. simpl. rewrite app_nil_r. eauto.
  - destruct codes as [|code codes]; [done|]. simpl in Hlen.
    change (exit_all (code :: codes) st)
      with (match currentProcess st with
            | Some h => exit_all codes (step (ChildExit h code) st)
            | None => st
            end).
    rewrite Hcur.
    destruct (exit_launches_head st h c code d1 k1 _ Hcur Hc Hl
                (requests_run_again reqs))
      as (Hcur' & Hlen' & Hcmd' & c2 & Hc2 & Hl2).
    set (st' := step (ChildExit h code) st) in *. clearbody st'.
    destruct (IH codes _ _ c2 Hcur' Hc2 Hl2 ltac:(lia)) as (Hcmd & Hfin & Hlast).
    split; [|split].
    + rewrite Hcmd, Hcmd', <- app_assoc. done.
    + rewrite Hfin. f_equal. destruct reqs; simpl in *; lia.
    + replace (length (heap st) + length ((d1, k1) :: reqs) - 1)
        with (match reqs with
              | [] => length (heap st)
              | _ :: _ => length (heap st') + length reqs - 1
              end); [done|].
      destruct reqs; simpl in *; lia.
Qed.

(** Calls of [run] made one after the other while child [h] is current
    spawn nothing: each leaves one more listener on [h], emits one line
    feed, and asks once more for the end of [h], with SIGINT or, on
    win32, with one more [taskkill]. *)
Theorem run_all_while_live reqs st h c :
  currentProcess st = Some h -> heap st !! h = Some c ->
  currentProcess (run_all reqs st) = Some h /\
  length (heap (run_all reqs st)) = length (heap st) /\
  emitted (run_all reqs st)
    = emitted st ++ replicate (length reqs) (Event "bracketsjdk" "output" nl) /\
  detached (run_all reqs st)
    = detached st ++
      (if is_win32
       then replicate (length reqs)
              ("taskkill /pid " +:+ pretty (child_pid c) +:+ " /T /F")
       else []) /\
  exists c', heap (run_all reqs st) !! h = Some c' /\
    child_on_exit c' = child_on_exit c ++ map (fun r => RunAgain r.1 r.2) reqs /\
    child_signals c' = child_signals c ++
      (if is_win32 then [] else replicate (length reqs) "SIGINT") /\
    child_stdin c' = child_stdin c.
Proof.
  revert st c. induction reqs as [|[d k] reqs IH]; intros st c Hcur Hc.
  - change (run_all [] st) with st. cbn [length replicate map].
    destruct is_win32; rewrite ?app_nil_r; (repeat split; try done);
      exists c; by rewrite ?app_nil_r.
  - change (run_all ((d, k) :: reqs) st) with (run_all reqs (run d k st)).
    pose proof (killProcess_lookup_live st h c Hcur Hc) as Hk.
    set (ck := if is_win32 then c else kill "SIGINT" c) in Hk.
    assert (heap (run d k st) !! h = Some (add_exit_listener (RunAgain d k) ck))
      as Hc1.
    { rewrite (run_live _ _ _ _ Hcur), update_child_lookup.
      rewrite decide_True by done. by rewrite Hk. }
    destruct (IH (run d k st) _ (run_live_currentProcess d k st h Hcur) Hc1)
      as (Hcur' & Hlen' & Hem' & Hdet' & c' & Hc' & Hl' & Hs' & Hin').
    assert (emitted (run d k st) = emitted st ++ [Event "bracketsjdk" "output" nl])
      as Hem1.
    { rewrite (run_live _ _ _ _ Hcur).
      change (emitted (update_child _ _ ?s)) with (emitted s).
      by eapply killProcess_emitted. }
    assert (detached (run d k st) = detached (killProcess st)) as Hdet1
      by (by rewrite (run_live _ _ _ _ Hcur)).
    assert (length (heap (run d k st)) = length (heap st)) as Hlen1.
    { rewrite (run_live _ _ _ _ Hcur), update_child_length.
      apply killProcess_length. }
    split; [done|]. split; [congruence|]. split; [|split].
    + rewrite Hem', Hem1, <- app_assoc. done.
    + rewrite Hdet', Hdet1, (killProcess_detached st h c Hcur Hc).
      unfold ck. destruct is_win32; simpl; rewrite <- app_assoc; done.
    + exists c'. split; [exact Hc'|]. rewrite Hl', Hs', Hin'. unfold ck.
      destruct is_win32; simpl; rewrite <- ?app_assoc; done.
Qed.

(** Text written while a restart is pending goes to the child that is
    being ended: it is still the one in the slot, and the class asked
    for has not been launched. *)
Theorem write_reaches_old_child directory className input st h c :
  currentProcess st = Some h -> heap st !! h = Some c ->
  length (heap (writeToStdin input (run directory className st)))
    = length (heap st) /\
  exists c', heap (writeToStdin input (run directory className st)) !! h = Some c' /\
    child_stdin c' = child_stdin c ++ [input] /\
    child_command c' = child_command c.
Proof.
  intros Hcur Hc.
  pose proof (run_live_currentProcess directory className st h Hcur) as Hcur1.
  pose proof (killProcess_lookup_live st h c Hcur Hc) as Hk.
  set (ck := if is_win32 then c else kill "SIGINT" c) in Hk.
  assert (heap (run directory className st) !! h
          = Some (add_exit_listener (RunAgain directory className) ck)) as Hc1.
  { rewrite (run_live _ _ _ _ Hcur), update_child_lookup.
    rewrite decide_True by done. by rewrite Hk. }
  unfold writeToStdin. rewrite Hcur1. split.
  - rewrite update_child_length, (run_live _ _ _ _ Hcur), update_child_length.
    apply killProcess_length.
  - eexists. split.
    + rewrite update_child_lookup, decide_True by done. by rewrite Hc1.
    + unfold ck. by destruct is_win32.
Qed.

(** ** The gateway and the supervisor keep to themselves *)

Lemma killProcess_disk st :
  disk (killProcess st) = disk st /\ sh_log (killProcess st) = sh_log st.
Proof.
  unfold killProcess. destruct (currentProcess st) as [h|]; [|done].
  destruct is_win32; simpl; [|done]. by destruct (heap st !! h).
Qed.

Lemma run_disk directory className st :
  disk (run directory className st) = disk st /\
  sh_log (run directory className st) = sh_log st.
Proof.
  unfold run. destruct (currentProcess st) as [h|]; [|done].
  apply (killProcess_disk st).
Qed.

Lemma listeners_disk this code ls st :
  disk (foldl (call_exit_listener this code) st ls) = disk st /\
  sh_log (foldl (call_exit_listener this code) st ls) = sh_log st.
Proof.
  revert st. induction ls as [|l ls IH]; intros st; simpl; [done|].
  destruct (IH (call_exit_listener this code st l)) as [-> ->].
  destruct l as [|d k]; simpl; [|apply run_disk].
  unfold on_exit. by destruct (decide (currentProcess st = Some this)).
Qed.

(** Nothing the supervisor does, on a call or on the news of a child,
    runs a shell command or changes the disk: only [compileFiles] does. *)
Theorem supervisor_leaves_disk a st :
  match a with
  | CallCompileFiles _ _ => True
  | _ => disk (step a st) = disk st /\ sh_log (step a st) = sh_log st
  end.
Proof.
  destruct a; simpl; try done.
  - apply run_disk.
  - unfold writeToStdin. by destruct (currentProcess st).
  - apply killProcess_disk.
  - unfold emit_exit. destruct (heap _ !! h); [|done].
    apply (listeners_disk h code _ (update_child h mark_exited st)).
Qed.

(** [compileFiles], however it ends, leaves the slot, every child and
    the commands started in the background as they were. *)
Theorem compileFiles_leaves_supervisor filePaths outputPath st :
  currentProcess (snd (compileFiles filePaths outputPath st)) = currentProcess st /\
  heap (snd (compileFiles filePaths outputPath st)) = heap st /\
  detached (snd (compileFiles filePaths outputPath st)) = detached st.
Proof.
  destruct (decide (filePaths = [])) as [->|Hne]; [done|].
  destruct (shell (create_command outputPath) None (disk st)) as [d1 r1] eqn:H1.
  destruct (shell (clear_command outputPath) (clear_cwd outputPath) d1)
    as [d2 r2] eqn:H2.
  destruct (shell (javac_command filePaths outputPath) None d2) as [d3 r3] eqn:H3.
  rewrite (compileFiles_unfold _ _ _ _ _ _ _ _ _ Hne H1 H2 H3).
  destruct r2; [done|]. by destruct is_win32.
Qed.

(** Where the directory is cleared with [rm], a failure of [rm] is
    not caught: [compileFiles] ends with its exception, having emitted
    nothing and without running [javac]. *)
Theorem compileFiles_rm_fails filePaths outputPath st d1 r1 d2 err :
  is_win32 = false -> filePaths <> [] ->
  shell ("mkdir -p " +:+ dq +:+ outputPath +:+ dq) None (disk st) = (d1, r1) ->
  shell ("rm -rf " +:+ dq +:+ outputPath +:+ dq +:+ "*") None d1
    = (d2, ExitNonZero err) ->
  fst (compileFiles filePaths outputPath st) = Thrown err /\
  emitted (snd (compileFiles filePaths outputPath st)) = emitted st /\
  sh_command <$> sh_log (snd (compileFiles filePaths outputPath st))
    = (sh_command <$> sh_log st)
      ++ ["mkdir -p " +:+ dq +:+ outputPath +:+ dq;
          "rm -rf " +:+ dq +:+ outputPath +:+ dq +:+ "*"] /\
  disk (snd (compileFiles filePaths outputPath st)) = d2.
Proof.
  intros Hwin Hne H1 H2.
  destruct (shell (javac_command filePaths outputPath) None d2) as [d3 r3] eqn:H3.
  assert (create_command outputPath = "mkdir -p " +:+ dq +:+ outputPath +:+ dq)
    as E1 by (unfold create_command; by rewrite Hwin).
  assert (clear_command outputPath = "rm -rf " +:+ dq +:+ outputPath +:+ dq +:+ "*")
    as E2 by (unfold clear_command; by rewrite Hwin).
  assert (clear_cwd outputPath = None) as E3
    by (unfold clear_cwd; by rewrite Hwin).
  rewrite <- E1 in H1. rewrite <- E2, <- E3 in H2.
  rewrite (compileFiles_unfold _ _ _ _ _ _ _ _ _ Hne H1 H2 H3), Hwin.
  cbv beta iota. rewrite E1, E2. unfold fst, snd, emitted, sh_log, disk.
  by rewrite fmap_app.
Qed.

(** On win32 both directory commands sit in a try-catch: whatever
    they do, [compileFiles] returns, having run [javac] as its last
    command, and returns [true] exactly when [javac] exits with zero. *)
Theorem compileFiles_win32_returns filePaths outputPath st :
  is_win32 = true -> filePaths <> [] ->
  exists d r,
    fst (compileFiles filePaths outputPath st)
      = Returned (match r with Exit0 => true | ExitNonZero _ => false end) /\
    shell (javac_command filePaths outputPath) None d
      = (disk (snd (compileFiles filePaths outputPath st)), r) /\
    last (sh_log (snd (compileFiles filePaths outputPath st)))
      = Some (ShCall (javac_command filePaths outputPath) None d).
Proof.
  intros Hwin Hne.
  destruct (shell (create_command outputPath) None (disk st)) as [d1 r1] eqn:H1.
  destruct (shell (clear_command outputPath) (clear_cwd outputPath) d1)
    as [d2 r2] eqn:H2.
  destruct (shell (javac_command filePaths outputPath) None d2) as [d3 r3] eqn:H3.
  exists d2, r3.
  rewrite (compileFiles_unfold _ _ _ _ _ _ _ _ _ Hne H1 H2 H3), Hwin.
  assert (forall l (x y z : sh_call), last (l ++ [x; y; z]) = Some z) as Hlast.
  { intros l x y z. change [x; y; z] with ([x; y] ++ [z]).
    by rewrite app_assoc, last_snoc. }
  destruct r2; cbv beta iota; simpl; rewrite Hlast; by rewrite H3.
Qed.

End Script.


(** ** The two directory commands under the POSIX shell *)

Lemma cut_at_dq_plain w r :
  plain w = true -> cut_at_dq (w +:+ dq +:+ r) = Some (w, r).
Proof.
  induction w as [|a w IH]; simpl; intros H; [done|].
  apply andb_prop in H as [Ha Hw]. unfold special in Ha.
  destruct (Ascii.eqb a (Ascii.ascii_of_nat 34)); [done|].
  by rewrite IH.
Qed.

Lemma parse_mkdir w :
  plain w = true ->
  parse_command ("mkdir -p " +:+ dq +:+ w +:+ dq) = Some (MkdirP w).
Proof.
  intros H. unfold parse_command.
  change (strip_prefix ("mkdir -p " +:+ dq) ("mkdir -p " +:+ dq +:+ w +:+ dq))
    with (Some (w +:+ dq)).
  pose proof (cut_at_dq_plain w "" H) as E.
  change (dq +:+ "") with dq in E. cbv beta iota. by rewrite E, H.
Qed.

Lemma parse_rm w :
  plain w = true ->
  parse_command ("rm -rf " +:+ dq +:+ w +:+ dq +:+ "*") = Some (RmRfGlob w).
Proof.
  intros H. unfold parse_command.
  change (strip_prefix ("mkdir -p " +:+ dq) ("rm -rf " +:+ dq +:+ w +:+ dq +:+ "*"))
    with (@None string).
  change (strip_prefix ("rm -rf " +:+ dq) ("rm -rf " +:+ dq +:+ w +:+ dq +:+ "*"))
    with (Some (w +:+ dq +:+ "*")).
  cbv beta iota. by rewrite (cut_at_dq_plain w "*" H), H.
Qed.

Lemma split_slash_nonempty s : split_slash s <> [].
Proof.
  destruct s as [|a s]; simpl; [done|].
  destruct (Ascii.eqb a (Ascii.ascii_of_nat 47)); [done|].
  by destruct (split_slash s).
Qed.

Lemma split_slash_trailing w :
  split_slash (w +:+ "/") = split_slash w ++ [""].
Proof.
  induction w as [|a w IH]; simpl; [done|].
  destruct (Ascii.eqb a (Ascii.ascii_of_nat 47)); rewrite IH; [done|].
  pose proof (split_slash_nonempty w). by destruct (split_slash w).
Qed.

Lemma plain_trailing w : plain w = true -> plain (w +:+ "/") = true.
Proof.
  induction w as [|a w IH]; simpl; [done|].
  intros [Ha Hw]%andb_prop. by rewrite Ha, IH.
Qed.

Lemma dir_exists_spec p d : dir_exists p d = true <-> p = [] \/ p ∈ d.
Proof. unfold dir_exists. apply bool_decide_eq_true. Qed.

Lemma mkdir_p_incl from pieces d q : q ∈ d -> q ∈ mkdir_p from pieces d.
Proof.
  revert from d. induction pieces as [|n pieces IH]; intros from d Hq; simpl; [done|].
  apply IH. destruct (dir_exists (walk from n) d); [done|].
  apply elem_of_app. by left.
Qed.

Lemma mkdir_p_exists from pieces d :
  dir_exists from d = true ->
  dir_exists (foldl walk from pieces) (mkdir_p from pieces d) = true.
Proof.
  revert from d. induction pieces as [|n pieces IH]; intros from d Hd; simpl; [done|].
  apply IH. destruct (dir_exists (walk from n) d) eqn:E; [done|].
  apply dir_exists_spec. right. apply elem_of_app. right. by apply list_elem_of_singleton.
Qed.

(** [mkdir -p] leaves the directory its operand names on the disk. *)
Lemma mkdir_p_made from pieces d :
  pieces <> [] ->
  dir_exists (foldl walk from pieces) (mkdir_p from pieces d) = true.
Proof.
  destruct pieces as [|n pieces]; [done|]. intros _. simpl.
  apply mkdir_p_exists. destruct (dir_exists (walk from n) d) eqn:E; [done|].
  apply dir_exists_spec. right. apply elem_of_app. right. by apply list_elem_of_singleton.
Qed.

Lemma strip_path_self dir : strip_path dir dir = Some [].
Proof. induction dir as [|n dir IH]; simpl; [done|]. by rewrite String.eqb_refl. Qed.

(** With its trailing slash, the word of [rm -rf "w/"*] names the
    directory and an empty stem. *)
Lemma rm_rf_glob_trailing here w d :
  rm_rf_glob here (w +:+ "/") d =
  filter (fun q => negb (globbed (resolve here (w +:+ "/")) "" q)) d.
Proof.
  unfold rm_rf_glob, resolve. rewrite split_slash_trailing.
  by rewrite removelast_last, last_last, foldl_snoc.
Qed.

Lemma globbed_empty_stem dir q :
  globbed dir "" q = true <->
  exists name rest, strip_path dir q = Some (name :: rest) /\ hidden name = false.
Proof.
  unfold globbed. destruct (strip_path dir q) as [[|name rest]|].
  - split; [done|]. by intros (? & ? & ? & _).
  - unfold glob_match.
    replace (String.prefix "" name) with true by (by destruct name).
    change (hidden "") with false. rewrite orb_false_r. simpl. split.
    + intros H. exists name, rest. split; [done|]. by destruct (hidden name).
    + intros (? & ? & [= <- <-] & ->). done.
  - split; [done|]. by intros (? & ? & ? & _).
Qed.

(** What [compileFiles] does to the directory before [javac] runs. With
    a list that is not empty it runs the command that makes the
    directory and goes on whether that command failed or not; when the
    command that clears the directory exits with zero, [javac] is the
    third command and starts on the disk these two leave. On a POSIX
    host and with the directory written with its trailing slash, [javac]
    then finds the directory on the disk, holding no entry but those
    whose name starts with a dot, and finds every path the pattern of
    [rm] does not cover where it was. *)
Theorem compileFiles_prepares_directory :
  (forall os_platform shell filePaths outputPath st d1 r1 d2 d3 r3,
     filePaths <> [] ->
     shell (create_command os_platform outputPath) None (disk st) = (d1, r1) ->
     shell (clear_command os_platform outputPath)
       (clear_cwd os_platform outputPath) d1 = (d2, Exit0) ->
     shell (javac_command filePaths outputPath) None d2 = (d3, r3) ->
     sh_log (snd (compileFiles os_platform shell filePaths outputPath st)) =
       sh_log st ++
       [ShCall (create_command os_platform outputPath) None (disk st);
        ShCall (clear_command os_platform outputPath)
          (clear_cwd os_platform outputPath) d1;
        ShCall (javac_command filePaths outputPath) None d2]) /\
  (forall os_platform wd programs filePaths w st,
     is_win32 os_platform = false -> filePaths <> [] -> plain w = true ->
     exists d1 d2,
       sh_log (snd (compileFiles os_platform (posix_shell wd programs)
                      filePaths (w +:+ "/") st)) =
         sh_log st ++
         [ShCall ("mkdir -p " +:+ dq +:+ (w +:+ "/") +:+ dq) None (disk st);
          ShCall ("rm -rf " +:+ dq +:+ (w +:+ "/") +:+ dq +:+ "*") None d1;
          ShCall (javac_command filePaths (w +:+ "/")) None d2] /\
       dir_exists (resolve wd (w +:+ "/")) d2 = true /\
       (forall q name rest,
          q ∈ d2 -> strip_path (resolve wd (w +:+ "/")) q = Some (name :: rest) ->
          hidden name = true) /\
       (forall q, q ∈ disk st ->
          globbed (resolve wd (w +:+ "/")) "" q = false -> q ∈ d2)).
Proof.
  split.
  - intros os_platform shell filePaths outputPath st d1 r1 d2 d3 r3 Hne H1 H2 H3.
    rewrite (compileFiles_unfold _ _ _ _ _ _ _ _ _ _ _ Hne H1 H2 H3). done.
  - intros os_platform wd programs filePaths w st Hwin Hne Hw.
    set (out := w +:+ "/"). assert (plain out = true) as Hout by (by apply plain_trailing).
    set (d1 := mkdir_p (start_of wd out) (split_slash out) (disk st)).
    set (d2 := rm_rf_glob wd out d1).
    assert (posix_shell wd programs (create_command os_platform out) None (disk st)
            = (d1, Exit0)) as H1.
    { unfold posix_shell, create_command. rewrite Hwin, (parse_mkdir _ Hout).
      replace (String.eqb out "") with false by (by destruct w). done. }
    assert (posix_shell wd programs (clear_command os_platform out)
              (clear_cwd os_platform out) d1 = (d2, Exit0)) as H2.
    { unfold posix_shell, clear_command, clear_cwd.
      by rewrite Hwin, (parse_rm _ Hout). }
    destruct (posix_shell wd programs (javac_command filePaths out) None d2)
      as [d3 r3] eqn:H3.
    exists d1, d2. split.
    { rewrite (compileFiles_unfold _ _ _ _ _ _ _ _ _ _ _ Hne H1 H2 H3).
      unfold create_command, clear_command, clear_cwd. by rewrite Hwin. }
    assert (forall q, q ∈ d2 <-> globbed (resolve wd out) "" q = false /\ q ∈ d1)
      as Hd2.
    { intros q. unfold d2, out. rewrite rm_rf_glob_trailing, list_elem_of_filter.
      destruct (globbed _ _ q); simpl; split; intros [? ?]; by split. }
    split; [|split].
    + apply dir_exists_spec.
      assert (dir_exists (resolve wd out) d1 = true) as Hd1
        by (apply mkdir_p_made, split_slash_nonempty).
      apply dir_exists_spec in Hd1 as [?|Hin]; [by left|right].
      apply Hd2. split; [|done]. unfold globbed. by rewrite strip_path_self.
    + intros q name rest [Hg _]%Hd2 Hs.
      destruct (hidden name) eqn:Hh; [done|].
      assert (globbed (resolve wd out) "" q = true) as Hg'
        by (apply globbed_empty_stem; eauto).
      congruence.
    + intros q Hq Hg. apply Hd2. split; [done|]. by apply mkdir_p_incl.
Qed.

(** ** The supervisor and the gateway at work *)

(** Against C1 as the specification words it: [run] is called for
    [Main], then for [A] and for [B] while [Main] runs. When [Main]
    exits it is [A] that is launched, with the request for [B] moved to
    it; [B] is launched in turn when [A] exits. Both requests are
    served, the older one first. *)
Lemma earlier_request_is_launched :
  let st1 :=
    exec "linux" some_pid (posix_shell [] javac_ok)
      [CallRun "/d" "Main"; CallRun "/d" "A"; CallRun "/d" "B";
       ChildExit 0 (Some 0%Z)] (init_state []) in
  let st2 :=
    step "linux" some_pid (posix_shell [] javac_ok) (ChildExit 1 None) st1 in
  currentProcess st1 = Some 1 /\
  child_command <$> heap st1 !! 1 = Some "java A" /\
  child_on_exit <$> heap st1 !! 1 = Some [ClearSlot; RunAgain "/d" "B"] /\
  child_signals <$> heap st1 !! 1 = Some ["SIGINT"] /\
  currentProcess st2 = Some 2 /\
  child_command <$> heap st2 !! 2 = Some "java B" /\
  length (heap st2) = 3.
Proof. vm_compute. repeat split. Qed.

Lemma run_while_live_queues_witness :
  (currentProcess
     (step "linux" some_pid (posix_shell [] javac_ok) (ChildExit 0 (Some 0%Z))
        (run "linux" some_pid "/d" "B"
           (exec "linux" some_pid (posix_shell [] javac_ok)
              [CallRun "/d" "Main"; CallRun "/d" "A"] (init_state []))))
   = Some 1 /\
   (exists c2,
      heap
        (step "linux" some_pid (posix_shell [] javac_ok) (ChildExit 0 (Some 0%Z))
           (run "linux" some_pid "/d" "B"
              (exec "linux" some_pid (posix_shell [] javac_ok)
                 [CallRun "/d" "Main"; CallRun "/d" "A"] (init_state []))))
        !! 1 = Some c2 /\
      child_command c2 = "java A" /\ child_cwd c2 = "/d" /\
      child_on_exit c2 = [ClearSlot; RunAgain "/d" "B"] /\
      child_exited c2 = false /\ child_signals c2 = ["SIGINT"]) /\
   currentProcess
     (step "linux" some_pid (posix_shell [] javac_ok) (ChildExit 1 None)
        (step "linux" some_pid (posix_shell [] javac_ok) (ChildExit 0 (Some 0%Z))
           (run "linux" some_pid "/d" "B"
              (exec "linux" some_pid (posix_shell [] javac_ok)
                 [CallRun "/d" "Main"; CallRun "/d" "A"] (init_state [])))))
   = Some 2) /\
  detached
    (step "win32" some_pid (posix_shell [] javac_ok) (ChildExit 0 (Some 0%Z))
       (run "win32" some_pid "/d" "B"
          (exec "win32" some_pid (posix_shell [] javac_ok)
             [CallRun "/d" "Main"; CallRun "/d" "A"] (init_state []))))
  = ["taskkill /pid 4000 /T /F"; "taskkill /pid 4000 /T /F";
     "taskkill /pid 4001 /T /F"].
Proof.
  split.
  - destruct (run_while_live_queues "linux" some_pid (posix_shell [] javac_ok)
      (exec "linux" some_pid (posix_shell [] javac_ok)
         [CallRun "/d" "Main"; CallRun "/d" "A"] (init_state []))
      0
      {| child_command := "java Main"; child_cwd := "/d";
         child_pid := some_pid 0;
         child_on_exit := [ClearSlot; RunAgain "/d" "A"];
         child_stdin := []; child_signals := ["SIGINT"];
         child_exited := false |}
      [RunAgain "/d" "A"] "/d" "B" (Some 0%Z) "/d" "A" [RunAgain "/d" "B"]
      eq_refl eq_refl eq_refl ltac:(repeat constructor) eq_refl)
      as (_ & _ & _ & Hcur & _ & _ & _ & Hc2 & Hnext).
    split; [exact Hcur|]. split; [exact Hc2|].
    exact (proj1 (Hnext None "/d" "B" [] eq_refl)).
  - destruct (run_while_live_queues "win32" some_pid (posix_shell [] javac_ok)
      (exec "win32" some_pid (posix_shell [] javac_ok)
         [CallRun "/d" "Main"; CallRun "/d" "A"] (init_state []))
      0
      {| child_command := "java Main"; child_cwd := "/d";
         child_pid := some_pid 0;
         child_on_exit := [ClearSlot; RunAgain "/d" "A"];
         child_stdin := []; child_signals := [];
         child_exited := false |}
      [RunAgain "/d" "A"] "/d" "B" (Some 0%Z) "/d" "A" [RunAgain "/d" "B"]
      eq_refl eq_refl eq_refl ltac:(repeat constructor) eq_refl)
      as (_ & _ & _ & _ & _ & _ & Hdet & _).
    exact Hdet.
Defined.

Lemma exit_clears_only_current_witness :
  currentProcess
    (on_exit 1 (Some 0%Z)
       {| currentProcess := Some 1;
          heap := [Child "java Old" "/d" 7 [ClearSlot] [] ["SIGINT"] false;
                   Child "java New" "/d" 8 [ClearSlot] [] [] false];
          emitted := []; detached := []; disk := []; sh_log := [] |}) = None /\
  currentProcess
    (step "linux" some_pid (posix_shell [] javac_ok) (ChildExit 0 (Some 130%Z))
       {| currentProcess := Some 1;
          heap := [Child "java Old" "/d" 7 [ClearSlot] [] ["SIGINT"] false;
                   Child "java New" "/d" 8 [ClearSlot] [] [] false];
          emitted := []; detached := []; disk := []; sh_log := [] |}) = Some 1.
Proof.
  split.
  - apply (proj1 (exit_clears_only_current "linux" some_pid
             (posix_shell [] javac_ok) 1 (Some 0%Z) _)). reflexivity.
  - apply (proj2 (exit_clears_only_current "linux" some_pid
             (posix_shell [] javac_ok) 0 (Some 130%Z) _) 1); [reflexivity|lia].
Defined.

Lemma single_live_process_witness :
  length
    (heap
       (exec "linux" some_pid (posix_shell [] javac_ok)
          ([CallRun "/d" "Main"; CallRun "/d" "A"] ++
           ChildExit 0 (Some 0%Z) :: [CallWriteToStdin "1"; CallRun "/d" "B"])
          (init_state []))) = 2 /\
  heap (run "linux" some_pid "/d" "A"
          (run "linux" some_pid "/d" "Main" (init_state []))) !! 1 = None.
Proof.
  split.
  - apply (proj2 (proj2 (single_live_process "linux" some_pid
             (posix_shell [] javac_ok))) []
             [CallRun "/d" "Main"; CallRun "/d" "A"] 0 (Some 0%Z)
             [CallWriteToStdin "1"; CallRun "/d" "B"] 1 None); reflexivity.
  - apply (proj1 (single_live_process "linux" some_pid
             (posix_shell [] javac_ok)) "/d" "A"
             (run "linux" some_pid "/d" "Main" (init_state [])) 0).
    reflexivity.
Defined.

Lemma killProcess_idle_witness :
  killProcess "linux" (init_state project) = init_state project.
Proof. apply killProcess_idle. reflexivity. Defined.


Lemma writeToStdin_spec_witness :
  writeToStdin "42" (init_state project) = init_state project /\
  exists c', heap (writeToStdin "42"
                     (run "linux" some_pid "/d" "Main" (init_state []))) !! 0
             = Some c' /\ child_stdin c' = ["42"].
Proof.
  split.
  - apply (proj1 (writeToStdin_spec "42" (init_state project))). reflexivity.
  - destruct (proj2 (writeToStdin_spec "42"
                (run "linux" some_pid "/d" "Main" (init_state []))) 0
                (Child "java Main" "/d" (some_pid 0) [ClearSlot] [] [] false)
                eq_refl eq_refl) as (c' & Hc' & Hin & _).
    exists c'. split; [exact Hc'|exact Hin].
Defined.

Lemma run_while_live_frame_witness :
  currentProcess
    (run "win32" some_pid "/d" "A" (run "win32" some_pid "/d" "Main" (init_state [])))
  = Some 0 /\
  emitted
    (run "win32" some_pid "/d" "A" (run "win32" some_pid "/d" "Main" (init_state [])))
  = [Event "bracketsjdk" "log" "Running class Main...";
     Event "bracketsjdk" "output" nl].
Proof.
  destruct (run_while_live_frame "win32" some_pid (posix_shell [] javac_ok)
              "/d" "A" (run "win32" some_pid "/d" "Main" (init_state [])) 0
              eq_refl) as (Hcur & Hev & _).
  split; [exact Hcur|exact Hev].
Defined.

(** C5, on the disk of the small project. [emptyDir] is to delete the
    contents of the directory without deleting the directory itself, and
    [compileFiles] to empty it before [javac] runs. Given the directory
    without its trailing slash, [compileFiles] starts [javac] on a disk
    from which the directory itself is gone, and its neighbour [bin2]
    with it. Given it with the slash, [javac] starts on a disk where the
    entry of the directory whose name starts with a dot is still there. *)
Lemma clear_removes_more_and_less :
  sh_seen <$>
    last (sh_log (snd (compileFiles "linux" (posix_shell [] javac_ok)
                         ["/p/src/A.java"] "/p/bin" (init_state project))))
  = Some [ ["p"]; ["p"; "src"] ] /\
  sh_seen <$>
    last (sh_log (snd (compileFiles "linux" (posix_shell [] javac_ok)
                         ["/p/src/A.java"] "/p/bin/" (init_state project))))
  = Some [ ["p"]; ["p"; "bin"]; ["p"; "bin"; ".keep"]; ["p"; "bin2"];
           ["p"; "src"] ].
Proof. vm_compute. split; reflexivity. Qed.

Lemma compileFiles_prepares_directory_witness :
  sh_log (snd (compileFiles "win32"
                 (fun cmd cwd d =>
                    if String.prefix "md " cmd
                    then (d, ExitNonZero "A subdirectory or file already exists.")
                    else (d, Exit0))
                 ["C:/p/A.java"] "C:/p/bin/" (init_state project))) =
    sh_log (init_state project) ++
    [ShCall (create_command "win32" "C:/p/bin/") None (disk (init_state project));
     ShCall (clear_command "win32" "C:/p/bin/") (clear_cwd "win32" "C:/p/bin/")
       project;
     ShCall (javac_command ["C:/p/A.java"] "C:/p/bin/") None project] /\
  exists d1 d2,
    sh_log (snd (compileFiles "linux" (posix_shell [] javac_ok)
                   ["/p/src/A.java"] ("/p/bin" +:+ "/") (init_state project))) =
      sh_log (init_state project) ++
      [ShCall ("mkdir -p " +:+ dq +:+ ("/p/bin" +:+ "/") +:+ dq) None
         (disk (init_state project));
       ShCall ("rm -rf " +:+ dq +:+ ("/p/bin" +:+ "/") +:+ dq +:+ "*") None d1;
       ShCall (javac_command ["/p/src/A.java"] ("/p/bin" +:+ "/")) None d2] /\
    dir_exists (resolve [] ("/p/bin" +:+ "/")) d2 = true /\
    (forall q name rest,
       q ∈ d2 -> strip_path (resolve [] ("/p/bin" +:+ "/")) q = Some (name :: rest) ->
       hidden name = true) /\
    (forall q, q ∈ disk (init_state project) ->
       globbed (resolve [] ("/p/bin" +:+ "/")) "" q = false -> q ∈ d2).
Proof.
  split.
  - apply (proj1 compileFiles_prepares_directory "win32" _
             ["C:/p/A.java"] "C:/p/bin/" (init_state project)
             project (ExitNonZero "A subdirectory or file already exists.")
             project project Exit0).
    + discriminate.
    + reflexivity.
    + reflexivity.
    + reflexivity.
  - apply (proj2 compileFiles_prepares_directory "linux" [] javac_ok
             ["/p/src/A.java"] "/p/bin" (init_state project)).
    + reflexivity.
    + discriminate.
    + reflexivity.
Defined.

Lemma compileFiles_javac_witness :
  fst (compileFiles "linux" (posix_shell [] javac_rejects)
         ["/p/src/A.java"] "/p/bin/" (init_state project)) = Returned false /\
  emitted (snd (compileFiles "linux" (posix_shell [] javac_rejects)
                  ["/p/src/A.java"] "/p/bin/" (init_state project)))
  = emitted (init_state project) ++
    [Event "bracketsjdk" "log" "Compiling...";
     Event "bracketsjdk" "error" "Main.java:1: error: ';' expected"].
Proof.
  apply (compileFiles_javac "linux" (posix_shell [] javac_rejects)
           ["/p/src/A.java"] "/p/bin/" (init_state project)
           (snd (emptyDir "linux" (posix_shell [] javac_rejects) "/p/bin/"
                   (createDir "linux" (posix_shell [] javac_rejects) "/p/bin/"
                      (init_state project))))
           [ ["p"]; ["p"; "bin"]; ["p"; "bin"; ".keep"]; ["p"; "bin2"];
             ["p"; "src"] ]
           (ExitNonZero "Main.java:1: error: ';' expected")).
  - discriminate.
  - vm_compute. reflexivity.
  - vm_compute. reflexivity.
Defined.

(** ** More on the directory commands under the POSIX shell *)

Lemma mkdir_p_fixed from pieces d d' :
  (forall q, q ∈ mkdir_p from pieces d -> q ∈ d') ->
  mkdir_p from pieces d' = d'.
Proof.
  revert from d d'. induction pieces as [|n pieces IH]; intros from d d' Hsub;
    simpl in *; [done|].
  assert (dir_exists (walk from n) d' = true) as ->.
  { apply dir_exists_spec.
    destruct (dir_exists (walk from n) d) eqn:E.
    - apply dir_exists_spec in E as [?|Hin]; [by left|right].
      apply Hsub. by apply mkdir_p_incl.
    - right. apply Hsub, mkdir_p_incl, elem_of_app. right.
      by apply list_elem_of_singleton. }
  by eapply IH.
Qed.

(** [createDir] on a POSIX host: after it the directory is there, every
    path that was on the disk still is, and a second call changes
    nothing more. *)
Theorem createDir_posix os_platform wd programs dir st :
  is_win32 os_platform = false -> plain dir = true -> dir <> "" ->
  dir_exists (resolve wd dir)
    (disk (createDir os_platform (posix_shell wd programs) dir st)) = true /\
  (forall q, q ∈ disk st ->
     q ∈ disk (createDir os_platform (posix_shell wd programs) dir st)) /\
  disk (createDir os_platform (posix_shell wd programs) dir
          (createDir os_platform (posix_shell wd programs) dir st))
  = disk (createDir os_platform (posix_shell wd programs) dir st).
Proof.
  intros Hwin Hplain Hne.
  assert (forall s, disk (createDir os_platform (posix_shell wd programs) dir s)
                    = mkdir_p (start_of wd dir) (split_slash dir) (disk s)) as Hd.
  { intros s. unfold createDir, execSync, posix_shell.
    rewrite Hwin, (parse_mkdir _ Hplain).
    replace (String.eqb dir "") with false; [done|].
    symmetry. by apply String.eqb_neq. }
  rewrite !Hd. split; [|split].
  - apply mkdir_p_made, split_slash_nonempty.
  - intros q Hq. by apply mkdir_p_incl.
  - by eapply mkdir_p_fixed.
Qed.

Lemma prefix_refl s : String.prefix s s = true.
Proof.
  induction s as [|a s IH]; simpl; [done|].
  by destruct (Ascii.ascii_dec a a).
Qed.

Lemma strip_path_app a b q r :
  strip_path (a ++ b) q = Some r ->
  exists m, strip_path a q = Some m /\ strip_path b m = Some r.
Proof.
  revert q. induction a as [|n a IH]; intros q; simpl; [eauto|].
  destruct q as [|m q]; [done|]. destruct (String.eqb n m); [apply IH|done].
Qed.

(** [emptyDir] on a POSIX host, given a directory without the trailing
    slash its comment asks for: the star then follows the name of the
    directory, and neither the directory nor anything in it is left. *)
Theorem emptyDir_without_slash os_platform wd programs dir name st :
  is_win32 os_platform = false -> plain dir = true ->
  List.last (split_slash dir) "" = name ->
  name <> "" -> name <> "." -> name <> ".." ->
  fst (emptyDir os_platform (posix_shell wd programs) dir st) = Returned tt /\
  forall q,
    q ∈ disk (snd (emptyDir os_platform (posix_shell wd programs) dir st)) ->
    strip_path (resolve wd dir) q = None.
Proof.
  intros Hwin Hplain Hlast Hn1 Hn2 Hn3.
  unfold emptyDir, execSync, posix_shell. rewrite Hwin, (parse_rm _ Hplain).
  simpl. split; [done|]. intros q [Hg Hq]%list_elem_of_filter.
  destruct (strip_path (resolve wd dir) q) as [r|] eqn:Hs; [|done].
  exfalso. unfold resolve in Hs.
  rewrite (app_removelast_last "" (split_slash_nonempty dir)) in Hs.
  rewrite foldl_snoc, Hlast in Hs. rewrite Hlast in Hg.
  set (parent := foldl walk (start_of wd dir) (removelast (split_slash dir))) in *.
  assert (walk parent name = parent ++ [name]) as Hw.
  { unfold walk.
    replace (String.eqb name "") with false by (symmetry; by apply String.eqb_neq).
    replace (String.eqb name ".") with false by (symmetry; by apply String.eqb_neq).
    replace (String.eqb name "..") with false by (symmetry; by apply String.eqb_neq).
    done. }
  rewrite Hw in Hs. apply strip_path_app in Hs as (m & Hm & Hr).
  destruct m as [|name' m]; [done|]. simpl in Hr.
  destruct (String.eqb name name') eqn:E; [|done].
  apply String.eqb_eq in E as <-.
  unfold globbed in Hg. rewrite Hm in Hg. unfold glob_match in Hg.
  rewrite prefix_refl in Hg. by destruct (hidden name).
Qed.

(** ** The rest of the code at work *)

Lemma slot_holds_the_live_child_witness :
  live
    (exec "linux" some_pid (posix_shell [] javac_ok)
       [CallRun "/d" "Main"; CallRun "/d" "A"; ChildExit 0 (Some 0%Z)]
       (init_state [])) 1 = true.
Proof.
  apply (slot_holds_the_live_child "linux" some_pid (posix_shell [] javac_ok) []
           [CallRun "/d" "Main"; CallRun "/d" "A"; ChildExit 0 (Some 0%Z)] 1);
    reflexivity.
Defined.

Lemma exit_events_come_first_witness :
  currentProcess
    (exec "linux" some_pid (posix_shell [] javac_ok)
       [CallRun "/d" "Main"; CallKillProcess] (init_state [])) = Some 0.
Proof.
  apply (exit_events_come_first "linux" some_pid (posix_shell [] javac_ok) []
           [CallRun "/d" "Main"; CallKillProcess] 0 None).
  reflexivity.
Defined.

Lemma exit_all_serves_queue_witness :
  child_command <$>
    heap (exit_all "linux" some_pid (posix_shell [] javac_ok)
            [Some 0%Z; None]
            (run_all "linux" some_pid [("/d", "A"); ("/e", "B")]
               (run "linux" some_pid "/d" "Main" (init_state []))))
  = ["java Main"; "java A"; "java B"].
Proof.
  refine (proj1 (exit_all_serves_queue "linux" some_pid (posix_shell [] javac_ok)
    [("/d", "A"); ("/e", "B")] [Some 0%Z; None]
    (run_all "linux" some_pid [("/d", "A"); ("/e", "B")]
       (run "linux" some_pid "/d" "Main" (init_state [])))
    0
    {| child_command := "java Main"; child_cwd := "/d";
       child_pid := some_pid 0;
       child_on_exit := [ClearSlot; RunAgain "/d" "A"; RunAgain "/e" "B"];
       child_stdin := []; child_signals := ["SIGINT"; "SIGINT"];
       child_exited := false |}
    _ _ _ _)); reflexivity.
Defined.

Lemma run_all_while_live_witness :
  emitted
    (run_all "win32" some_pid [("/d", "A"); ("/e", "B")]
       (run "win32" some_pid "/d" "Main" (init_state [])))
  = [Event "bracketsjdk" "log" "Running class Main...";
     Event "bracketsjdk" "output" nl; Event "bracketsjdk" "output" nl] /\
  detached
    (run_all "win32" some_pid [("/d", "A"); ("/e", "B")]
       (run "win32" some_pid "/d" "Main" (init_state [])))
  = ["taskkill /pid 4000 /T /F"; "taskkill /pid 4000 /T /F"].
Proof.
  destruct (run_all_while_live "win32" some_pid [("/d", "A"); ("/e", "B")]
              (run "win32" some_pid "/d" "Main" (init_state [])) 0
              (Child "java Main" "/d" (some_pid 0) [ClearSlot] [] [] false)
              eq_refl eq_refl) as (_ & _ & Hev & Hdet & _).
  split; [exact Hev|exact Hdet].
Defined.

Lemma write_reaches_old_child_witness :
  exists c',
    heap (writeToStdin "y"
            (run "linux" some_pid "/d" "A"
               (run "linux" some_pid "/d" "Main" (init_state [])))) !! 0
    = Some c' /\
    child_stdin c' = ["y"] /\ child_command c' = "java Main".
Proof.
  destruct (write_reaches_old_child "linux" some_pid "/d" "A" "y"
              (run "linux" some_pid "/d" "Main" (init_state [])) 0
              (Child "java Main" "/d" (some_pid 0) [ClearSlot] [] [] false)
              eq_refl eq_refl) as (_ & c' & Hc' & Hin & Hcmd).
  exists c'. split; [exact Hc'|]. split; [exact Hin|exact Hcmd].
Defined.

Lemma compileFiles_rm_fails_witness :
  fst (compileFiles "linux" rm_denied ["/p/src/A.java"] "/p/bin/"
         (init_state project)) = Thrown "rm: Permission denied" /\
  emitted (snd (compileFiles "linux" rm_denied ["/p/src/A.java"] "/p/bin/"
                  (init_state project))) = [].
Proof.
  destruct (compileFiles_rm_fails "linux" rm_denied ["/p/src/A.java"] "/p/bin/"
              (init_state project) project Exit0 project "rm: Permission denied")
    as (Hret & Hev & _).
  - reflexivity.
  - discriminate.
  - reflexivity.
  - reflexivity.
  - split; [exact Hret|exact Hev].
Defined.

Lemma compileFiles_win32_returns_witness :
  exists d r,
    fst (compileFiles "win32" all_fail ["C:/p/A.java"] "C:/p/bin/"
           (init_state project))
      = Returned (match r with Exit0 => true | ExitNonZero _ => false end) /\
    all_fail (javac_command ["C:/p/A.java"] "C:/p/bin/") None d
      = (disk (snd (compileFiles "win32" all_fail ["C:/p/A.java"] "C:/p/bin/"
                      (init_state project))), r) /\
    last (sh_log (snd (compileFiles "win32" all_fail ["C:/p/A.java"] "C:/p/bin/"
                         (init_state project))))
      = Some (ShCall (javac_command ["C:/p/A.java"] "C:/p/bin/") None d).
Proof.
  apply (compileFiles_win32_returns "win32" all_fail ["C:/p/A.java"] "C:/p/bin/"
           (init_state project)).
  - reflexivity.
  - discriminate.
Defined.

Lemma createDir_posix_witness :
  dir_exists ["p"; "out"; "classes"]
    (disk (createDir "linux" (posix_shell [] javac_ok) "/p/out/classes"
             (init_state project))) = true.
Proof.
  apply (createDir_posix "linux" [] javac_ok "/p/out/classes" (init_state project)).
  - reflexivity.
  - reflexivity.
  - discriminate.
Defined.

Lemma emptyDir_without_slash_witness :
  fst (emptyDir "linux" (posix_shell [] javac_ok) "/p/bin" (init_state project))
  = Returned tt.
Proof.
  apply (emptyDir_without_slash "linux" [] javac_ok "/p/bin" "bin"
           (init_state project)).
  - reflexivity.
  - reflexivity.
  - reflexivity.
  - discriminate.
  - discriminate.
  - discriminate.
Defined.
